(** * pyspectrum, [dataSources/DataSource_file.py]

    A shallow embedding of the file data source: the filename parser
    [parse_filename] and the [Input] class (constructor, [read_cplx_samples],
    [close], [reconnect], [set_sleep_time]), with the properties of the
    specification stated over them.

    Conventions.
    - A Python [str] is a [string]; a character is a code point below 256.
    - A Python [float] is a binary64 value, Rocq's primitive [float].
    - A call that may raise returns a [result]; a method of [Input] also
      returns the object as the call leaves it, because an exception does
      not undo the assignments made before it. *)

From Stdlib Require Import String Ascii List Bool Arith Lia PrimFloat.
From Stdlib Require Import ZArith Uint63.
From Stdlib Require Init.Byte.
Import ListNotations.
Local Open Scope string_scope.
Local Open Scope list_scope.
Local Open Scope nat_scope.

(** ** Exceptions and results *)

Inductive exn : Type :=
| ValueError (msg : string)
| IndexError (msg : string)
| OSError (msg : string)
| EOFError
| WaveError (msg : string).

Inductive result (A : Type) : Type :=
| Ret (a : A)
| Raise (e : exn).

Arguments Ret {A} a.
Arguments Raise {A} e.

Definition bind {A B : Type} (m : result A) (k : A -> result B) : result B :=
  match m with
  | Ret a => k a
  | Raise e => Raise e
  end.

Notation "x <- m ;; k" := (bind m (fun x => k))
  (at level 61, m at next level, right associativity).

(** ** Python string and list primitives *)

Module Py.

(** [str.isspace] on one character, for code points below 256:
    TAB..CR, FS..US, SPACE, NEL and NBSP. *)
Definition is_space (c : ascii) : bool :=
  let n := nat_of_ascii c in
  ((9 <=? n) && (n <=? 13)) || ((28 <=? n) && (n <=? 32))
  || (n =? 133) || (n =? 160).

Fixpoint lstrip (s : string) : string :=
  match s with
  | EmptyString => EmptyString
  | String c s' => if is_space c then lstrip s' else s
  end.

Fixpoint rstrip (s : string) : string :=
  match s with
  | EmptyString => EmptyString
  | String c s' =>
      match rstrip s' with
      | EmptyString => if is_space c then EmptyString else String c EmptyString
      | t => String c t
      end
  end.

(** [s.strip()] *)
Definition strip (s : string) : string := rstrip (lstrip s).

(** [s.split(sep)] for a one-character separator: never empty. *)
Fixpoint split (sep : ascii) (s : string) : list string :=
  match s with
  | EmptyString => [EmptyString]
  | String c s' =>
      if Ascii.eqb c sep then EmptyString :: split sep s'
      else match split sep s' with
           | [] => [String c EmptyString]
           | p :: ps => String c p :: ps
           end
  end.

(** [sub in s] *)
Fixpoint contains (sub s : string) : bool :=
  match s with
  | EmptyString => String.prefix sub EmptyString
  | String _ s' => String.prefix sub s || contains sub s'
  end.

(** [s[n:]] for [n >= 0] *)
Fixpoint drop (n : nat) (s : string) : string :=
  match n, s with
  | O, _ => s
  | S _, EmptyString => EmptyString
  | S n', String _ s' => drop n' s'
  end.

(** [x in l] for a list of strings *)
Definition mem (x : string) (l : list string) : bool :=
  existsb (String.eqb x) l.

(** [l[i]] with Python's negative indices: [IndexError] out of range. *)
Definition index {A : Type} (l : list A) (i : Z) : result A :=
  let n := Z.of_nat (List.length l) in
  let j := if Z.ltb i 0 then Z.add i n else i in
  if Z.ltb j 0 then Raise (IndexError "list index out of range")
  else match nth_error l (Z.to_nat j) with
       | Some x => Ret x
       | None => Raise (IndexError "list index out of range")
       end.

(** [[i for i, x in enumerate(l) if p(x)]], counting from [start] *)
Fixpoint indices_from {A : Type} (p : A -> bool) (start : nat) (l : list A)
  : list nat :=
  match l with
  | [] => []
  | x :: l' =>
      if p x then start :: indices_from p (S start) l'
      else indices_from p (S start) l'
  end.

Definition indices {A : Type} (p : A -> bool) (l : list A) : list nat :=
  indices_from p 0 l.

End Py.

(** ** The base class [DataSource] and the builtins the module calls

    The module under study imports these; it does not define them. *)

Section FileSource.

(** [float(s)] on a string: the value, or [None] for [ValueError]. *)
Variable py_float : string -> option float.

(** [DataSource.supported_data_types]: the catalogue of encoding tags. *)
Variable supported_data_types : list string.

(** ** [parse_filename] *)

Definition ParsedFilename : Type := bool * string * bool * float * float.

Definition markers : list string := ["cplx"; "real"].

(** Lines 60-81: the centre frequency in Hz, 0.0 when none is recovered.
    [parts[index + 1]] is outside the handler's reach when it raises
    [IndexError]: the handler is [except ValueError]. *)
Definition parse_centre_frequency (filename : string) (parts : list string)
  : result float :=
  if Py.contains ".cf" filename then
    match Py.indices (Py.contains "cf") parts with
    | [i] =>
        cf <- Py.index parts (Z.of_nat i) ;;
        next <- Py.index parts (Z.of_nat i + 1)%Z ;;
        if Py.mem next markers then
          match py_float (Py.drop 2 cf) with
          | Some v => Ret (v * 1e6)%float
          | None => Ret 0%float
          end
        else
          cf_decimal_fraction <- Py.index parts (-4)%Z ;;
          match py_float (Py.drop 2 cf ++ "." ++ cf_decimal_fraction)%string with
          | Some v => Ret (v * 1e6)%float
          | None => Ret 0%float
          end
    | _ => Ret 0%float
    end
  else Ret 0%float.

Definition parse_filename (filename : string) : result ParsedFilename :=
  match filename with
  | EmptyString => Ret (false, "", true, 0%float, 0%float)
  | _ =>
      let parts := map Py.strip (Py.split "." filename) in
      if 4 <=? List.length parts then
        data_type <- Py.index parts (-1)%Z ;;
        sample_rate <- Py.index parts (-2)%Z ;;
        cplx <- Py.index parts (-3)%Z ;;
        centre_frequency <- parse_centre_frequency filename parts ;;
        if Py.mem cplx markers then
          if negb (String.eqb cplx "cplx") then
            Ret (false, data_type, false, 0%float, centre_frequency)
          else if Py.mem data_type supported_data_types then
            match py_float sample_rate with
            | Some sample_rate_hz =>
                Ret (true, data_type, true, sample_rate_hz, centre_frequency)
            | None =>
                Ret (false, data_type, true, 0%float, centre_frequency)
            end
          else Ret (false, data_type, true, 0%float, centre_frequency)
        else Ret (false, data_type, true, 0%float, centre_frequency)
      else Ret (false, "", true, 0%float, 0%float)
  end.

(** ** File objects

    An open binary file and an open wave reader, as the module uses them:
    a byte sequence, a read cursor and a closed flag. *)

Definition bytes : Type := list Byte.byte.

Record BufferedReader : Type := mkBufferedReader {
  f_data : bytes;
  f_pos : nat;
  f_closed : bool
}.

Record Wave_read : Type := mkWave_read {
  w_nchannels : nat;
  w_sampwidth : nat;
  w_framerate : float;
  w_data : bytes;          (* the data chunk *)
  w_pos : nat;             (* byte offset in the data chunk *)
  w_closed : bool
}.

(** What a closed file object raises on [seek] and on [read]. *)
Definition closed_file : exn := ValueError "seek of closed file".

Definition read_closed_file : exn := ValueError "read of closed file".

(** [f.read(size)]: at most [size] bytes from the cursor. *)
Definition file_read (size : nat) (f : BufferedReader)
  : result bytes * BufferedReader :=
  if f_closed f then (Raise read_closed_file, f)
  else
    let data := firstn size (skipn (f_pos f) (f_data f)) in
    (Ret data, mkBufferedReader (f_data f) (f_pos f + List.length data) false).

(** [f.seek(0, 0)] *)
Definition file_seek0 (f : BufferedReader) : result unit * BufferedReader :=
  if f_closed f then (Raise closed_file, f)
  else (Ret tt, mkBufferedReader (f_data f) 0 false).

(** [f.close()]: closing a closed file is allowed. *)
Definition file_close (f : BufferedReader) : BufferedReader :=
  mkBufferedReader (f_data f) (f_pos f) true.

Definition set_w_pos (p : nat) (w : Wave_read) : Wave_read :=
  mkWave_read (w_nchannels w) (w_sampwidth w) (w_framerate w) (w_data w) p
    (w_closed w).

(** [w.readframes(nframes)]: whole frames while the data chunk lasts; the
    chunk reads through the file object, which [close] has closed.  A
    reader is closed here only by [Input.close], and is read again with its
    flag set only after [Input.reconnect], whose [rewind] leaves a seek
    pending: that seek is what fails.  A closed reader with no seek pending
    is answered in the same way; the library fails there at the read, or
    returns no byte when no frame is left or asked for. *)
Definition wave_readframes (nframes : nat) (w : Wave_read)
  : result bytes * Wave_read :=
  if w_closed w then (Raise closed_file, w)
  else
    let framesize := w_nchannels w * w_sampwidth w in
    let data := firstn (nframes * framesize) (skipn (w_pos w) (w_data w)) in
    (Ret data, set_w_pos (w_pos w + List.length data) w).

(** [w.rewind()]: resets the reader's position, with no file access. *)
Definition wave_rewind (w : Wave_read) : Wave_read := set_w_pos 0 w.

(** [w.close()] *)
Definition wave_close (w : Wave_read) : Wave_read :=
  mkWave_read (w_nchannels w) (w_sampwidth w) (w_framerate w) (w_data w)
    (w_pos w) true.

(** The files of the machine: what [open(path, "rb")] gives for each path,
    the content or the exception ([OSError] for a missing or unreadable
    file). *)
Definition FileSystem : Type := string -> result bytes.

Definition builtin_open (fs : FileSystem) (path : string)
  : result BufferedReader :=
  data <- fs path ;; Ret (mkBufferedReader data 0 false).

(** [Wave_read.initfp]: the header of a RIFF/WAVE stream (channels, sample
    width, frame rate, data chunk), [wave.Error] for any other content and
    [EOFError] for one that ends inside the header. *)
Variable wave_header : bytes -> result (nat * nat * float * bytes).

(** [wave.open(path, "rb")] opens the path with the builtin [open] and then
    reads the header. *)
Definition wave_open (fs : FileSystem) (path : string) : result Wave_read :=
  data <- fs path ;;
  h <- wave_header data ;;
  let '(nchannels, sampwidth, framerate, chunk) := h in
  Ret (mkWave_read nchannels sampwidth framerate chunk 0 false).

(** ** The [Input] object *)

(** The decoded samples: [unpack_data] of the base class produces them. *)
Variable cplx_array : Type.

(** Modelled from the spec: [DataSource.unpack_data], the conversion of one
    snapshot of raw bytes to complex samples under the current encoding;
    the base class is not part of this module. *)
Variable unpack_data : string -> bytes -> cplx_array.

(** Modelled from the spec: the byte width of one sample of an encoding,
    from the catalogue of the base class. *)
Variable bytes_per_sample : string -> nat.

(** [time.sleep(secs)]: blocks, or raises on a value it refuses. *)
Variable time_sleep : float -> result unit.

Record Input : Type := mkInput {
  _source : string;
  _number_complex_samples : nat;
  _data_type : string;
  _sample_rate : float;
  _centre_frequency : float;
  _bytes_per_snap : nat;
  _wav_file : option Wave_read;
  _file : option BufferedReader;
  _connected : bool;
  _sleep_time : float
}.

Definition set_wav_file (v : option Wave_read) (o : Input) : Input :=
  mkInput (_source o) (_number_complex_samples o) (_data_type o)
    (_sample_rate o) (_centre_frequency o) (_bytes_per_snap o)
    v (_file o) (_connected o) (_sleep_time o).

Definition set_file (v : option BufferedReader) (o : Input) : Input :=
  mkInput (_source o) (_number_complex_samples o) (_data_type o)
    (_sample_rate o) (_centre_frequency o) (_bytes_per_snap o)
    (_wav_file o) v (_connected o) (_sleep_time o).

Definition set_connected (v : bool) (o : Input) : Input :=
  mkInput (_source o) (_number_complex_samples o) (_data_type o)
    (_sample_rate o) (_centre_frequency o) (_bytes_per_snap o)
    (_wav_file o) (_file o) v (_sleep_time o).

Definition set_sample_rate (v : float) (o : Input) : Input :=
  mkInput (_source o) (_number_complex_samples o) (_data_type o)
    v (_centre_frequency o) (_bytes_per_snap o)
    (_wav_file o) (_file o) (_connected o) (_sleep_time o).

Definition set_centre_frequency (v : float) (o : Input) : Input :=
  mkInput (_source o) (_number_complex_samples o) (_data_type o)
    (_sample_rate o) v (_bytes_per_snap o)
    (_wav_file o) (_file o) (_connected o) (_sleep_time o).

(** [self._sleep_time = sleep_time], lines 174-181 *)
Definition set_sleep_time (sleep_time : float) (o : Input) : Input :=
  mkInput (_source o) (_number_complex_samples o) (_data_type o)
    (_sample_rate o) (_centre_frequency o) (_bytes_per_snap o)
    (_wav_file o) (_file o) (_connected o) sleep_time.

(** Modelled from the spec: [DataSource.set_sample_type] records the
    encoding and resizes the snapshot,
    bytes_per_snapshot = number_of_complex_samples * 2 * bytes_per_sample. *)
Definition set_sample_type (data_type : string) (o : Input) : Input :=
  mkInput (_source o) (_number_complex_samples o) data_type
    (_sample_rate o) (_centre_frequency o)
    (_number_complex_samples o * 2 * bytes_per_sample data_type)
    (_wav_file o) (_file o) (_connected o) (_sleep_time o).

(** Modelled from the spec: [DataSource.__init__] stores the five
    construction parameters and sizes the snapshot; lines 118-119 then
    clear both handles. *)
Definition DataSource_init (source : string) (number_complex_samples : nat)
    (data_type : string) (sample_rate centre_frequency : float) : Input :=
  mkInput source number_complex_samples data_type sample_rate
    centre_frequency (number_complex_samples * 2 * bytes_per_sample data_type)
    None None false 0%float.

Definition module_type : string := "file".

(** [try: body except E as e: handler] for the two classes the module
    catches. *)
Definition except_WaveError {A : Type} (body : result A)
    (handler : result A) : result A :=
  match body with
  | Raise (WaveError _) => handler
  | r => r
  end.

Definition except_OSError {A : Type} (body : result A)
    (handler : string -> result A) : result A :=
  match body with
  | Raise (OSError e) => handler e
  | r => r
  end.

(** Lines 143-165: the raw-binary branch, inside [try ... except OSError]. *)
Definition init_binary (parse : string -> result ParsedFilename)
    (fs : FileSystem) (self : Input) : result Input :=
  f <- builtin_open fs (_source self) ;;
  let self := set_file (Some f) self in
  p <- parse (_source self) ;;
  let '(ok, data_type, complex_flag, sample_rate_hz, centre_frequency_fn) :=
    p in
  if ok then
    if complex_flag then
      let self := set_sample_type data_type self in
      let self := set_sample_rate sample_rate_hz self in
      if negb (PrimFloat.eqb centre_frequency_fn 0) then
        Ret (set_centre_frequency centre_frequency_fn self)
      else Ret self
    else
      Raise (ValueError
               ("Error: Unsupported input of 'real' from " ++ _source self))
  else Ret self.

(** Lines 123-139: the wave branch, inside [try ... except wave.Error]. *)
Definition init_wave (fs : FileSystem) (self : Input) : result Input :=
  w <- wave_open fs (_source self) ;;
  let self := set_wav_file (Some w) self in
  if negb (w_nchannels w =? 2) then
    Raise (ValueError (module_type ++ " is wav but not 2 channels"))
  else if 2 <? w_sampwidth w then
    Raise (ValueError (module_type ++ " is wav but more than 2 bytes per sample"))
  else Ret (set_sample_rate (w_framerate w) self).

(** [Input.__init__], lines 101-172, over the parser it is given. *)
Definition Input_init_with (parse : string -> result ParsedFilename)
    (fs : FileSystem) (file_name : string) (number_complex_samples : nat)
    (data_type : string) (sample_rate centre_frequency : float)
  : result Input :=
  let self := DataSource_init file_name number_complex_samples data_type
                sample_rate centre_frequency in
  self <- except_WaveError (init_wave fs self)
            (except_OSError (init_binary parse fs self)
               (fun e => Raise (ValueError ("Failed to open input file, " ++ e)))) ;;
  Ret (set_sleep_time 0%float (set_connected true self)).

(** [Input(file_name, ...)]: the constructor as the module has it, calling
    [parse_filename]. *)
Definition Input_init : FileSystem -> string -> nat -> string -> float ->
                        float -> result Input :=
  Input_init_with parse_filename.

(** ** Methods

    A method runs on the object and leaves it changed even when it raises:
    [M A] gives the outcome together with the object after the call. *)

Definition M (A : Type) : Type := Input -> result A * Input.

Definition ret {A : Type} (a : A) : M A := fun self => (Ret a, self).

Definition raise {A : Type} (e : exn) : M A := fun self => (Raise e, self).

Definition bindM {A B : Type} (m : M A) (k : A -> M B) : M B :=
  fun self =>
    match m self with
    | (Ret a, self') => k a self'
    | (Raise e, self') => (Raise e, self')
    end.

Definition assign (f : Input -> Input) : M unit :=
  fun self => (Ret tt, f self).

Definition lift {A : Type} (r : result A) : M A := fun self => (r, self).

(** [try: body except OSError as msg: handler] *)
Definition try_OSError {A : Type} (body : M A) (handler : string -> M A)
  : M A :=
  fun self =>
    match body self with
    | (Raise (OSError msg), self') => handler msg self'
    | out => out
    end.

Notation "x <~ m ;; k" := (bindM m (fun x => k))
  (at level 61, m at next level, right associativity).
Notation "m ;;; k" := (bindM m (fun _ => k))
  (at level 61, right associativity).

(** Line 193: [self._wav_file.readframes(self._number_complex_samples)] *)
Definition fetch_wav (w : Wave_read) : M bytes :=
  fun self =>
    let '(r, w') := wave_readframes (_number_complex_samples self) w in
    (r, set_wav_file (Some w') self).

(** Line 196: [self._file.read(self._bytes_per_snap)] *)
Definition fetch_file (f : BufferedReader) : M bytes :=
  fun self =>
    let '(r, f') := file_read (_bytes_per_snap self) f in
    (r, set_file (Some f') self).

(** Lines 191-209: the body under [if self._wav_file or self._file], with
    [fetch] the read of the handle that is set; [now] is what
    [time.time_ns()] returns during the call. *)
Definition read_snapshot (fetch : M bytes) (now : Z)
  : M (option cplx_array * Z) :=
  raw_bytes <~
    try_OSError
      (raw_bytes <~ fetch ;;
       fun self =>
         if negb (List.length raw_bytes =? _bytes_per_snap self) then
           (assign (set_connected false) ;;;
            raise (ValueError "End of file")) self
         else
           (lift (time_sleep (_sleep_time self)) ;;; ret raw_bytes) self)
      (fun msg => raise (ValueError ("OSError, " ++ msg))) ;;
  fun self => ret (Some (unpack_data (_data_type self) raw_bytes), now) self.

(** [read_cplx_samples], lines 183-210 *)
Definition read_cplx_samples (now : Z) : M (option cplx_array * Z) :=
  fun self =>
    match _wav_file self, _file self with
    | Some w, _ => read_snapshot (fetch_wav w) now self
    | None, Some f => read_snapshot (fetch_file f) now self
    | None, None => ret (None, 0%Z) self
    end.

(** [close], lines 212-217 *)
Definition close : M unit :=
  fun self =>
    let self :=
      match _wav_file self with
      | Some w => set_wav_file (Some (wave_close w)) self
      | None =>
          match _file self with
          | Some f => set_file (Some (file_close f)) self
          | None => self
          end
      end in
    (Ret tt, set_connected false self).

(** [reconnect], lines 219-236 *)
Definition reconnect : M bool :=
  assign (set_connected false) ;;;
  (fun self =>
     match _wav_file self with
     | Some w =>
         assign (set_connected true)
           (set_wav_file (Some (wave_rewind w)) self)
     | None =>
         match _file self with
         | Some f =>
             let '(r, f') := file_seek0 f in
             (_ <~ lift r ;; assign (set_connected true))
               (set_file (Some f') self)
         | None => (Ret tt, self)
         end
     end) ;;;
  (fun self => ret (_connected self) self).

(** ** Notions used in the statements *)

(** Lines 84-96 on the three fields read from the end. *)
Definition check_fields (cplx sample_rate data_type : string)
    (centre_frequency : float) : ParsedFilename :=
  if Py.mem cplx markers then
    if negb (String.eqb cplx "cplx") then
      (false, data_type, false, 0%float, centre_frequency)
    else if Py.mem data_type supported_data_types then
      match py_float sample_rate with
      | Some sample_rate_hz =>
          (true, data_type, true, sample_rate_hz, centre_frequency)
      | None => (false, data_type, true, 0%float, centre_frequency)
      end
    else (false, data_type, true, 0%float, centre_frequency)
  else (false, data_type, true, 0%float, centre_frequency).

(** The object right after a successful construction: connected, no delay,
    one handle, open and at the start of its stream. *)
Definition fresh (self : Input) : Prop :=
  _connected self = true /\ _sleep_time self = 0%float /\
  ((exists data, _wav_file self = None /\
                 _file self = Some (mkBufferedReader data 0 false)) \/
   (exists w, _wav_file self = Some w /\ _file self = None /\
              w_pos w = 0 /\ w_closed w = false)).

(** The [i]-th snapshot of a stream cut in pieces of [size] bytes. *)
Definition snapshot (data : bytes) (size i : nat) : bytes :=
  firstn size (skipn (i * size) data).

(** One read per element of [times], in order; the outcomes and the object
    after the last. *)
Fixpoint read_times (times : list Z) (self : Input)
  : list (result (option cplx_array * Z)) * Input :=
  match times with
  | [] => ([], self)
  | now :: rest =>
      let '(r, self') := read_cplx_samples now self in
      let '(rs, self'') := read_times rest self' in
      (r :: rs, self'')
  end.

(** A raw-binary source with its cursor at [pos]. *)
Definition at_pos (data : bytes) (pos : nat) (self : Input) : Input :=
  set_file (Some (mkBufferedReader data pos false)) self.

(** The byte offset of the handle that is set. *)
Definition cursor (self : Input) : nat :=
  match _wav_file self, _file self with
  | Some w, _ => w_pos w
  | None, Some f => f_pos f
  | None, None => 0
  end.

(** The object with the cursor of its handle back at the start and the
    connected flag set. *)
Definition rewound (self : Input) : Input :=
  set_connected true
    match _wav_file self with
    | Some w => set_wav_file (Some (wave_rewind w)) self
    | None =>
        match _file self with
        | Some f =>
            set_file (Some (mkBufferedReader (f_data f) 0 (f_closed f))) self
        | None => self
        end
    end.

(** The source reads a raw-binary file that has been closed. *)
Definition raw_closed (self : Input) : bool :=
  match _wav_file self, _file self with
  | None, Some f => f_closed f
  | _, _ => false
  end.

Definition is_set {A : Type} (o : option A) : bool :=
  match o with
  | Some _ => true
  | None => false
  end.

(** Reads from [self] up to the one that fails with end of file. *)
Inductive read_to_exhaustion : Input -> Input -> Prop :=
| exhausted_now (now : Z) (self self' : Input) :
    read_cplx_samples now self = (Raise (ValueError "End of file"), self') ->
    read_to_exhaustion self self'
| exhausted_later (now : Z) (v : option cplx_array * Z)
    (self self1 self' : Input) :
    read_cplx_samples now self = (Ret v, self1) ->
    read_to_exhaustion self1 self' ->
    read_to_exhaustion self self'.

(** The calls a user of the object can make, and the object after a
    sequence of them, whatever each call returned or raised. *)
Inductive call : Type :=
| Read (now : Z)
| Close
| Reconnect
| SetSleepTime (sleep_time : float).

Definition after_call (self : Input) (c : call) : Input :=
  match c with
  | Read now => snd (read_cplx_samples now self)
  | Close => snd (close self)
  | Reconnect => snd (reconnect self)
  | SetSleepTime sleep_time => set_sleep_time sleep_time self
  end.

Definition after_calls (calls : list call) (self : Input) : Input :=
  fold_left after_call calls self.

(** The calls that read or rewind, and neither close nor set the delay. *)
Definition is_reading (c : call) : bool :=
  match c with
  | Read _ | Reconnect => true
  | Close | SetSleepTime _ => false
  end.

(** A container source with its reader [w]. *)
Definition on_wave (w : Wave_read) (self : Input) : Input :=
  set_wav_file (Some w) self.

End FileSource.

(** ** Notions of the filename grammar *)

Module Grammar.
Import Py.

(** [c] occurs in [s]. *)
Fixpoint occurs (c : ascii) (s : string) : bool :=
  match s with
  | EmptyString => false
  | String d s' => Ascii.eqb d c || occurs c s'
  end.

(** The dot-separated fields of a filename as the parser sees them. *)
Definition fields (filename : string) : list string :=
  map strip (split "." filename).

(** The fields that contain [cf]. *)
Definition cf_fields (filename : string) : list string :=
  filter (contains "cf") (fields filename).

(** A field as the grammar writes it: no dot inside, no blank around. *)
Definition plain (s : string) : Prop :=
  occurs "." s = false /\ strip s = s.

(** [sep.join(l)] *)
Fixpoint join (sep : ascii) (l : list string) : string :=
  match l with
  | [] => EmptyString
  | [x] => x
  | x :: l' => (x ++ String sep (join sep l'))%string
  end.

(** [s.count(c)] for one character. *)
Fixpoint count (c : ascii) (s : string) : nat :=
  match s with
  | EmptyString => 0
  | String d s' => (if Ascii.eqb d c then 1 else 0) + count c s'
  end.

End Grammar.

(** ** A concrete environment

    The parameters above at concrete values, to run the definitions. *)

Module Sample.

Definition digit (c : ascii) : option Z :=
  let n := nat_of_ascii c in
  if (48 <=? n) && (n <=? 57) then Some (Z.of_nat (n - 48)) else None.

Fixpoint digits (acc : Z) (s : string) : option Z :=
  match s with
  | EmptyString => Some acc
  | String c s' =>
      match digit c with
      | Some d => digits (acc * 10 + d)%Z s'
      | None => None
      end
  end.

Definition float_of_Z (z : Z) : float := PrimFloat.of_uint63 (Uint63.of_Z z).

(** [float] on the unsigned decimal literals [ddd], [ddd.ddd], [ddd.] and
    [.ddd] of at most 15 digits, where the quotient of the two integers is
    the nearest binary64 value; every other string is refused. *)
Definition py_float (s : string) : option float :=
  match Py.split "." s with
  | [a] =>
      if (1 <=? String.length a) && (String.length a <=? 15) then
        option_map float_of_Z (digits 0 a)
      else None
  | [a; b] =>
      let n := String.length a + String.length b in
      if (1 <=? n) && (n <=? 15) then
        match digits 0 (a ++ b) with
        | Some m =>
            Some (float_of_Z m / float_of_Z (10 ^ Z.of_nat (String.length b)))%float
        | None => None
        end
      else None
  | _ => None
  end.

Definition supported_data_types : list string := ["8t"; "16tbe"; "16tle"].

Definition bytes_per_sample (data_type : string) : nat :=
  if String.eqb data_type "8t" then 1 else 2.

Definition unpack_data (data_type : string) (raw : bytes) : bytes := raw.

(** [time.sleep] refuses a negative or NaN duration. *)
Definition time_sleep (secs : float) : result unit :=
  if PrimFloat.leb 0 secs then Ret tt
  else Raise (ValueError "sleep length must be non-negative").

(** The header reader of a machine none of whose files starts with
    [RIFF]: the chunk header of eight bytes cannot be read from a shorter
    content, which is [EOFError]; any other is not a wave file. *)
Definition wave_header (data : bytes) : result (nat * nat * float * bytes) :=
  if List.length data <? 8 then Raise EOFError
  else Raise (WaveError "file does not start with RIFF id").

Definition eight : bytes :=
  [Byte.x01; Byte.x02; Byte.x03; Byte.x04; Byte.x05; Byte.x06; Byte.x07;
   Byte.x08].

Definition nine : bytes :=
  [Byte.x01; Byte.x02; Byte.x03; Byte.x04; Byte.x05; Byte.x06; Byte.x07;
   Byte.x08; Byte.x09].

(** A header reader for which every content is an 8-bit stereo wave of
    8000 frames per second, and one for which it is a 16-bit mono wave. *)
Definition stereo_header (data : bytes) : result (nat * nat * float * bytes) :=
  Ret (2, 1, 8000%float, data).

Definition mono_header (data : bytes) : result (nat * nat * float * bytes) :=
  Ret (1, 2, 8000%float, data).

(** Three files; every other path is missing. *)
Definition files : FileSystem :=
  fun path =>
    if String.eqb path "x.cplx.48000.8t" then Ret nine
    else if String.eqb path "short.cplx.48000.16tle" then Ret nine
    else if String.eqb path "x.real.10000.16tbe" then Ret eight
    else Raise (OSError ("[Errno 2] No such file or directory: " ++ path)).

Definition parse : string -> result ParsedFilename :=
  parse_filename py_float supported_data_types.

Definition init : FileSystem -> string -> nat -> string -> float -> float ->
                  result Input :=
  Input_init py_float supported_data_types wave_header bytes_per_sample.

Definition read : Z -> M (option bytes * Z) :=
  read_cplx_samples bytes unpack_data time_sleep.

(** The object built on [x.cplx.48000.8t] for one complex sample per read:
    nine bytes, snapshots of two. *)
Definition capture : Input :=
  mkInput "x.cplx.48000.8t" 1 "8t" 48000%float 0%float 2 None
    (Some (mkBufferedReader nine 0 false)) true 0%float.

(** The same object with its cursor at [pos]. *)
Definition capture_at (pos : nat) (connected : bool) : Input :=
  mkInput "x.cplx.48000.8t" 1 "8t" 48000%float 0%float 2 None
    (Some (mkBufferedReader nine pos false)) connected 0%float.

(** The object built on [short.cplx.48000.16tle] for four complex samples
    per read: nine bytes, snapshots of sixteen. *)
Definition short_at (pos : nat) (connected : bool) : Input :=
  mkInput "short.cplx.48000.16tle" 4 "16tle" 48000%float 0%float 16 None
    (Some (mkBufferedReader nine pos false)) connected 0%float.

(** A machine whose one file has [cf] in its tag field. *)
Definition tagged_files : FileSystem :=
  fun path =>
    if String.eqb path "x.cplx.48000.cf16" then Ret eight
    else Raise (OSError ("[Errno 2] No such file or directory: " ++ path)).

(** An open reader on nine bytes of 8-bit stereo frames. *)
Definition wave_reader : Wave_read :=
  mkWave_read 2 1 8000%float nine 0 false.

End Sample.

(** * Properties *)

(** ** Strings *)

Module PyFacts.
Import Py Grammar.

Lemma split_not_nil (sep : ascii) (s : string) : split sep s <> [].
Proof.
  destruct s as [|c s]; simpl; [discriminate|].
  destruct (Ascii.eqb c sep); [discriminate|].
  destruct (split sep s); discriminate.
Qed.

Lemma split_no_sep (sep : ascii) (s : string) :
  occurs sep s = false -> split sep s = [s].
Proof.
  induction s as [|c s IH]; simpl; [reflexivity|].
  intros H. apply orb_false_iff in H as [Hc Hs].
  rewrite Hc, (IH Hs). reflexivity.
Qed.

Lemma split_app (sep : ascii) (a b : string) :
  split sep (a ++ String sep b)%string = split sep a ++ split sep b.
Proof.
  induction a as [|c a IH]; simpl.
  - rewrite Ascii.eqb_refl. reflexivity.
  - destruct (Ascii.eqb c sep); [now rewrite IH|].
    rewrite IH. pose proof (split_not_nil sep a) as Hn.
    destruct (split sep a); [contradiction|reflexivity].
Qed.

Lemma rstrip_cons (c : ascii) (s : string) :
  is_space c = false -> rstrip (String c s) = String c (rstrip s).
Proof.
  intros Hc. simpl. destruct (rstrip s); [now rewrite Hc|reflexivity].
Qed.

Lemma rstrip_idem (s : string) : rstrip (rstrip s) = rstrip s.
Proof.
  induction s as [|c s IH]; simpl; [reflexivity|].
  destruct (rstrip s) as [|d t] eqn:E.
  - destruct (is_space c) eqn:Hc; simpl; [reflexivity|now rewrite Hc].
  - change (rstrip (String c (String d t))) with
      (match rstrip (String d t) with
       | EmptyString => if is_space c then EmptyString else String c EmptyString
       | u => String c u
       end).
    rewrite IH. reflexivity.
Qed.

Lemma strip_fixed_rstrip (s : string) : strip s = s -> rstrip s = s.
Proof.
  unfold strip. intros H. rewrite <- H at 1. rewrite rstrip_idem. exact H.
Qed.

(** A field that starts with a letter and carries no surrounding blanks
    stays as it is under [strip]. *)
Lemma strip_cons (c : ascii) (s : string) :
  is_space c = false -> strip s = s -> strip (String c s) = String c s.
Proof.
  intros Hc Hs. unfold strip. simpl. rewrite Hc.
  rewrite (rstrip_cons c s Hc), (strip_fixed_rstrip s Hs). reflexivity.
Qed.

Lemma prefix_app (p s : string) : String.prefix p (p ++ s)%string = true.
Proof.
  induction p as [|c p IH]; simpl.
  - destruct s; reflexivity.
  - destruct (ascii_dec c c); [exact IH|congruence].
Qed.

Lemma contains_prefix (sub s : string) :
  String.prefix sub s = true -> contains sub s = true.
Proof.
  intros H. destruct s; cbn [contains]; [exact H|]. rewrite H. reflexivity.
Qed.

Lemma contains_app (sub a b : string) :
  contains sub (a ++ sub ++ b)%string = true.
Proof.
  induction a as [|c a IH]; cbn [append contains].
  - apply contains_prefix, prefix_app.
  - rewrite IH. apply orb_true_r.
Qed.

Lemma indices_from_nil (A : Type) (p : A -> bool) (l : list A) (n : nat) :
  filter p l = [] -> indices_from p n l = [].
Proof.
  revert n. induction l as [|x l IH]; intros n; simpl; [reflexivity|].
  destruct (p x); [discriminate|]. apply IH.
Qed.

Lemma indices_from_app (A : Type) (p : A -> bool) (l1 l2 : list A) (n : nat) :
  indices_from p n (l1 ++ l2) =
  indices_from p n l1 ++ indices_from p (n + List.length l1) l2.
Proof.
  revert n. induction l1 as [|x l1 IH]; intros n; simpl.
  - now rewrite Nat.add_0_r.
  - rewrite IH, Nat.add_succ_r. destruct (p x); reflexivity.
Qed.

(** When exactly one element satisfies [p], [indices] is its position. *)
Lemma indices_single (A : Type) (p : A -> bool) (pre post : list A) (x : A) :
  p x = true ->
  List.length (filter p (pre ++ x :: post)) = 1 ->
  indices p (pre ++ x :: post) = [List.length pre].
Proof.
  intros Hx Hlen. rewrite filter_app in Hlen. simpl in Hlen.
  rewrite Hx, length_app in Hlen. simpl in Hlen.
  assert (Hpre : filter p pre = []) by (apply length_zero_iff_nil; lia).
  assert (Hpost : filter p post = []) by (apply length_zero_iff_nil; lia).
  unfold indices. rewrite indices_from_app. simpl. rewrite Hx.
  rewrite (indices_from_nil A p pre 0 Hpre), (indices_from_nil A p post _ Hpost).
  reflexivity.
Qed.

Lemma index_app_nonneg (A : Type) (pre post : list A) (k : nat) (x : A) :
  nth_error post k = Some x ->
  index (pre ++ post) (Z.of_nat (List.length pre + k)) = Ret x.
Proof.
  intros H. unfold index.
  destruct (Z.ltb_spec (Z.of_nat (List.length pre + k)) 0) as [Hlt|_]; [lia|].
  destruct (Z.ltb_spec (Z.of_nat (List.length pre + k)) 0) as [Hlt|_]; [lia|].
  rewrite Nat2Z.id, nth_error_app2 by lia.
  replace (List.length pre + k - List.length pre) with k by lia.
  now rewrite H.
Qed.

(** [l[-j]] counts from the end. *)
Lemma index_app_neg (A : Type) (pre post : list A) (j : nat) (x : A) :
  1 <= j <= List.length post ->
  nth_error post (List.length post - j) = Some x ->
  index (pre ++ post) (- Z.of_nat j) = Ret x.
Proof.
  intros Hj H. unfold index. rewrite length_app.
  destruct (Z.ltb_spec (- Z.of_nat j) 0) as [_|Hge]; [|lia].
  destruct (Z.ltb_spec (- Z.of_nat j + Z.of_nat (List.length pre + List.length post)) 0)
    as [Hlt|_]; [lia|].
  replace (Z.to_nat (- Z.of_nat j + Z.of_nat (List.length pre + List.length post)))
    with (List.length pre + (List.length post - j)) by lia.
  rewrite nth_error_app2 by lia.
  replace (List.length pre + (List.length post - j) - List.length pre)
    with (List.length post - j) by lia.
  now rewrite H.
Qed.

End PyFacts.

Module GrammarFacts.
Import Py PyFacts Grammar.

Lemma split_join (sep : ascii) (name : string) (l : list string) :
  l <> [] ->
  Forall (fun s => occurs sep s = false) l ->
  split sep (name ++ String sep (join sep l))%string = split sep name ++ l.
Proof.
  intros Hne Hall. rewrite split_app. f_equal.
  induction Hall as [|x l Hx Hl IH]; [contradiction|].
  destruct l as [|y l].
  - simpl. now apply split_no_sep.
  - change (join sep (x :: y :: l))
      with (x ++ String sep (join sep (y :: l)))%string.
    rewrite split_app, (split_no_sep sep x Hx), IH by discriminate.
    reflexivity.
Qed.

Lemma fields_join (name : string) (l : list string) :
  l <> [] -> Forall plain l ->
  fields (name ++ String "." (join "." l))%string = fields name ++ l.
Proof.
  intros Hne Hall. unfold fields.
  rewrite split_join, map_app; trivial.
  - f_equal. clear Hne. induction Hall as [|x l [_ Hx] _ IH]; [reflexivity|].
    simpl. now rewrite Hx, IH.
  - eapply Forall_impl; [|exact Hall]. now intros s [Hs _].
Qed.

(** The last four fields, as [parts[-1]] ... [parts[-4]] find them. *)
Lemma index_last4 (pre : list string) (x4 x3 x2 x1 : string) :
  index (pre ++ [x4; x3; x2; x1]) (-1) = Ret x1 /\
  index (pre ++ [x4; x3; x2; x1]) (-2) = Ret x2 /\
  index (pre ++ [x4; x3; x2; x1]) (-3) = Ret x3 /\
  index (pre ++ [x4; x3; x2; x1]) (-4) = Ret x4.
Proof.
  repeat split.
  - apply (index_app_neg _ pre [x4; x3; x2; x1] 1); simpl; [lia|reflexivity].
  - apply (index_app_neg _ pre [x4; x3; x2; x1] 2); simpl; [lia|reflexivity].
  - apply (index_app_neg _ pre [x4; x3; x2; x1] 3); simpl; [lia|reflexivity].
  - apply (index_app_neg _ pre [x4; x3; x2; x1] 4); simpl; [lia|reflexivity].
Qed.

Lemma plain_cf (n : string) : plain n -> plain ("cf" ++ n).
Proof.
  intros [Hd Hs]. split.
  - exact Hd.
  - apply strip_cons; [reflexivity|]. apply strip_cons; [reflexivity|exact Hs].
Qed.

Lemma plain_literal (s : string) :
  occurs "." s = false -> strip s = s -> plain s.
Proof. now split. Qed.

End GrammarFacts.

(** ** The filename parser *)

Section ParserProperties.
Import Py PyFacts Grammar GrammarFacts.

Variable py_float : string -> option float.
Variable supported_data_types : list string.

Local Abbreviation parse := (parse_filename py_float supported_data_types).
Local Abbreviation centre := (parse_centre_frequency py_float).
Local Abbreviation check := (check_fields py_float supported_data_types).

Lemma parse_filename_last4 (name : string) (l pre : list string)
    (x4 x3 x2 x1 : string) :
  fields (name ++ String "." (join "." l))%string = pre ++ [x4; x3; x2; x1] ->
  parse (name ++ String "." (join "." l))%string =
  (cf <- centre (name ++ String "." (join "." l))%string
           (pre ++ [x4; x3; x2; x1]) ;;
   Ret (check x3 x2 x1 cf)).
Proof.
  intros Hf. unfold parse_filename.
  change (map strip (split "." (name ++ String "." (join "." l))%string))
    with (fields (name ++ String "." (join "." l))%string).
  rewrite Hf.
  destruct (index_last4 pre x4 x3 x2 x1) as (H1 & H2 & H3 & _).
  rewrite H1, H2, H3.
  replace (4 <=? List.length (pre ++ [x4; x3; x2; x1])) with true
    by (symmetry; apply Nat.leb_le; rewrite length_app; simpl; lia).
  destruct name; cbn [append bind]; unfold check_fields;
    destruct (centre _ _); cbn [bind]; trivial;
    destruct (mem x3 markers); trivial;
    destruct (negb (String.eqb x3 "cplx")); trivial;
    destruct (mem x1 supported_data_types); trivial;
    destruct (py_float x2); trivial.
Qed.

(** The centre frequency of a filename whose only [cf] field is [cf]. *)
Lemma centre_single (filename cf next : string) (pre post : list string) :
  contains ".cf" filename = true ->
  contains "cf" cf = true ->
  List.length (filter (contains "cf") (pre ++ cf :: next :: post)) = 1 ->
  centre filename (pre ++ cf :: next :: post) =
  if mem next markers then
    match py_float (drop 2 cf) with
    | Some v => Ret (v * 1e6)%float
    | None => Ret 0%float
    end
  else
    cf_decimal_fraction <- index (pre ++ cf :: next :: post) (-4) ;;
    match py_float (drop 2 cf ++ "." ++ cf_decimal_fraction)%string with
    | Some v => Ret (v * 1e6)%float
    | None => Ret 0%float
    end.
Proof.
  intros Hdot Hcf Hone. unfold parse_centre_frequency.
  rewrite Hdot, (indices_single _ _ pre (next :: post) cf Hcf Hone).
  replace (Z.of_nat (List.length pre))
    with (Z.of_nat (List.length pre + 0)) at 1 by (f_equal; lia).
  rewrite (index_app_nonneg _ pre (cf :: next :: post) 0 cf eq_refl).
  replace (Z.of_nat (List.length pre) + 1)%Z
    with (Z.of_nat (List.length pre + 1)) by lia.
  rewrite (index_app_nonneg _ pre (cf :: next :: post) 1 next eq_refl).
  reflexivity.
Qed.

(** No call returns [ok = true] together with [is_complex = false]: the
    branch that clears the complex flag (line 86) leaves [ok] at its
    initial [False]. *)
Lemma parse_filename_ok_is_complex (filename : string) :
  match parse filename with
  | Ret (true, _, false, _, _) => False
  | _ => True
  end.
Proof.
  unfold parse_filename. destruct filename as [|c filename]; [exact I|].
  destruct (4 <=? _); [|exact I].
  destruct (index _ (-1)); cbn [bind]; [|exact I].
  destruct (index _ (-2)); cbn [bind]; [|exact I].
  destruct (index _ (-3)) as [cplx|]; cbn [bind]; [|exact I].
  destruct (centre _ _); cbn [bind]; [|exact I].
  destruct (mem cplx markers); [|exact I].
  destruct (negb (String.eqb cplx "cplx")); [exact I|].
  destruct (mem _ supported_data_types); [|exact I].
  destruct (py_float _); exact I.
Qed.

(** C1. A filename of the grammar whose marker field is [real], with a
    rate field that converts and an encoding tag of the catalogue, is
    parsed to [ok = false] and [is_complex = false] (not to [ok = true]):
    here on [x.real.10000.16tbe], whatever [float] and the catalogue are. *)
Theorem parse_filename_real_not_ok :
  parse "x.real.10000.16tbe" = Ret (false, "16tbe", false, 0%float, 0%float).
Proof. reflexivity. Qed.

(** C3. A filename whose only field containing [cf] is the last one makes
    [parse_filename] raise [IndexError] at [parts[index + 1]]: the handler
    of line 80 catches [ValueError] alone. *)
Theorem parse_filename_raises_IndexError :
  parse "x.cplx.48000.cf16" = Raise (IndexError "list index out of range").
Proof. reflexivity. Qed.

(** C7 (amended). A filename [name.cfN.cplx.rate.tag] whose fields [N],
    [rate] and [tag] are plain, where [float(N)] and [float(rate)] convert,
    [tag] is in the catalogue and the [cfN] field is the only one that
    contains [cf], is parsed to [ok = true], encoding [tag],
    [is_complex = true], sample rate [float(rate)] and centre frequency
    [float(N) * 1e6]. *)
Theorem parse_filename_short_form (name N rate tag : string) (v r : float) :
  plain N -> plain rate -> plain tag ->
  py_float N = Some v ->
  py_float rate = Some r ->
  mem tag supported_data_types = true ->
  List.length (cf_fields (name ++ ".cf" ++ N ++ ".cplx." ++ rate ++ "." ++ tag)%string) = 1 ->
  parse (name ++ ".cf" ++ N ++ ".cplx." ++ rate ++ "." ++ tag)%string =
  Ret (true, tag, true, r, (v * 1e6)%float).
Proof.
  intros HN Hrate Htag Hv Hr Hmem Hone.
  change (name ++ ".cf" ++ N ++ ".cplx." ++ rate ++ "." ++ tag)%string
    with (name ++ String "." (join "." ["cf" ++ N; "cplx"; rate; tag]))%string
    in *.
  assert (Hf : fields (name ++ String "." (join "." ["cf" ++ N; "cplx"; rate; tag]))%string
               = fields name ++ [("cf" ++ N)%string; "cplx"; rate; tag]).
  { apply fields_join; [discriminate|].
    repeat apply Forall_cons; try apply Forall_nil; trivial;
      [now apply plain_cf | now split]. }
  rewrite (parse_filename_last4 _ _ _ _ _ _ _ Hf).
  unfold cf_fields in Hone. rewrite Hf in Hone.
  rewrite centre_single.
  - cbn [mem existsb markers String.eqb Ascii.eqb Bool.eqb orb drop append].
    rewrite Hv. cbn [bind]. unfold check_fields.
    cbn [mem existsb markers String.eqb Ascii.eqb Bool.eqb orb negb].
    now rewrite Hmem, Hr.
  - change (name ++ String "." (join "." ["cf" ++ N; "cplx"; rate; tag]))%string
      with (name ++ ".cf" ++ (N ++ String "." (join "." ["cplx"; rate; tag])))%string.
    apply contains_app.
  - apply (contains_app "cf" "" N).
  - exact Hone.
Qed.

(** C8 (amended). A filename [name.cfN.F.marker.rate.tag] with the marker
    [cplx] or [real] and plain fields, where [F] is not itself a marker,
    [float(N.F)] converts and the [cfN] field is the only one that contains
    [cf], is parsed to the centre frequency [float(N.F) * 1e6]. *)
Theorem parse_filename_long_form
    (name N F marker rate tag : string) (v : float) :
  plain N -> plain F -> plain rate -> plain tag ->
  marker = "cplx" \/ marker = "real" ->
  mem F markers = false ->
  py_float (N ++ "." ++ F)%string = Some v ->
  List.length (cf_fields (name ++ ".cf" ++ N ++ "." ++ F ++ "." ++ marker ++ "." ++ rate ++ "." ++ tag)%string) = 1 ->
  exists ok is_complex sample_rate_hz,
    parse (name ++ ".cf" ++ N ++ "." ++ F ++ "." ++ marker ++ "." ++ rate ++ "." ++ tag)%string =
    Ret (ok, tag, is_complex, sample_rate_hz, (v * 1e6)%float).
Proof.
  intros HN HF Hrate Htag Hmark HFm Hv Hone.
  assert (Hm : plain marker) by (destruct Hmark; subst; now split).
  change (name ++ ".cf" ++ N ++ "." ++ F ++ "." ++ marker ++ "." ++ rate ++ "." ++ tag)%string
    with (name ++ String "." (join "." ["cf" ++ N; F; marker; rate; tag]))%string
    in *.
  assert (Hf : fields (name ++ String "." (join "." ["cf" ++ N; F; marker; rate; tag]))%string
               = (fields name ++ [("cf" ++ N)%string]) ++ [F; marker; rate; tag]).
  { rewrite <- app_assoc. apply fields_join; [discriminate|].
    repeat apply Forall_cons; try apply Forall_nil; trivial.
    now apply plain_cf. }
  rewrite (parse_filename_last4 _ _ _ _ _ _ _ Hf).
  unfold cf_fields in Hone. rewrite Hf in Hone.
  destruct (index_last4 (fields name ++ [("cf" ++ N)%string]) F marker rate tag)
    as (_ & _ & _ & H4).
  rewrite <- app_assoc in Hone |- *. rewrite <- app_assoc in H4.
  cbn [app] in Hone, H4 |- *.
  rewrite centre_single.
  - rewrite HFm, H4. cbn [bind].
    change (drop 2 ("cf" ++ N)%string) with N. rewrite Hv. cbn [bind].
    unfold check_fields.
    destruct (mem marker markers), (negb (String.eqb marker "cplx")),
      (mem tag supported_data_types), (py_float rate); eauto.
  - change (name ++ String "." (join "." ["cf" ++ N; F; marker; rate; tag]))%string
      with (name ++ ".cf" ++ (N ++ String "." (join "." [F; marker; rate; tag])))%string.
    apply contains_app.
  - apply (contains_app "cf" "" N).
  - exact Hone.
Qed.

End ParserProperties.

(** C7 holds on one filename of the grammar. *)
Lemma parse_filename_short_form_witness :
  Sample.parse "x.cf100.cplx.48000.16tle" =
  Ret (true, "16tle", true, 48000%float, (100 * 1e6)%float).
Proof.
  apply (parse_filename_short_form Sample.py_float Sample.supported_data_types
           "x" "100" "48000" "16tle" 100%float 48000%float);
    try (split; reflexivity); reflexivity.
Defined.

(** C7 as stated fails when the name part has a field with [cf] in it:
    the [cf100] field is followed by the marker and [float("100") * 1e6]
    is not zero, yet the centre frequency comes out as 0.0. *)
Lemma parse_filename_short_form_two_cf :
  Sample.parse "cfg.cf100.cplx.48000.16tle" =
    Ret (true, "16tle", true, 48000%float, 0%float) /\
  Sample.py_float "100" = Some 100%float /\
  PrimFloat.eqb (100 * 1e6) 0 = false.
Proof. repeat split. Qed.

(** C8 holds on one filename of the long form. *)
Lemma parse_filename_long_form_witness :
  exists ok is_complex sample_rate_hz,
    Sample.parse "x.cf100.5.cplx.48000.8t" =
    Ret (ok, "8t", is_complex, sample_rate_hz, (100.5 * 1e6)%float).
Proof.
  apply (parse_filename_long_form Sample.py_float Sample.supported_data_types
           "x" "100" "5" "cplx" "48000" "8t" 100.5%float);
    try (split; reflexivity); try reflexivity.
  left; reflexivity.
Defined.

(** C8 as stated fails in the same way: [float("100.5") * 1e6] is not
    zero, the centre frequency returned is. *)
Lemma parse_filename_long_form_two_cf :
  Sample.parse "cfg.cf100.5.cplx.48000.8t" =
    Ret (true, "8t", true, 48000%float, 0%float) /\
  Sample.py_float "100.5" = Some 100.5%float /\
  PrimFloat.eqb (100.5 * 1e6) 0 = false.
Proof. repeat split. Qed.

(** ** The constructor *)

Section InputProperties.

Variable py_float : string -> option float.
Variable supported_data_types : list string.
Variable wave_header : bytes -> result (nat * nat * float * bytes).
Variable cplx_array : Type.
Variable unpack_data : string -> bytes -> cplx_array.
Variable bytes_per_sample : string -> nat.
Variable time_sleep : float -> result unit.

Local Abbreviation init_with :=
  (Input_init_with wave_header bytes_per_sample).
Local Abbreviation init :=
  (Input_init py_float supported_data_types wave_header bytes_per_sample).
Local Abbreviation read := (read_cplx_samples cplx_array unpack_data time_sleep).
Local Abbreviation reads := (read_times cplx_array unpack_data time_sleep).
Local Abbreviation exhausted :=
  (read_to_exhaustion cplx_array unpack_data time_sleep).
Local Abbreviation after := (after_calls cplx_array unpack_data time_sleep).
Local Abbreviation after_one :=
  (after_call cplx_array unpack_data time_sleep).

Lemma bind_Ret (A B : Type) (m : result A) (k : A -> result B) (b : B) :
  bind m k = Ret b -> exists a, m = Ret a /\ k a = Ret b.
Proof. destruct m as [a|e]; [eauto|discriminate]. Qed.

Lemma except_WaveError_Ret (A : Type) (body handler : result A) (a : A) :
  except_WaveError body handler = Ret a ->
  body = Ret a \/ (exists msg, body = Raise (WaveError msg)) /\ handler = Ret a.
Proof.
  destruct body as [x|[]]; cbn [except_WaveError]; try discriminate; eauto.
Qed.

Lemma init_wave_Ret (fs : FileSystem) (self0 self : Input) :
  init_wave wave_header fs self0 = Ret self ->
  exists w, _wav_file self = Some w /\ _file self = _file self0 /\
            w_pos w = 0 /\ w_closed w = false.
Proof.
  unfold init_wave, wave_open. intros H.
  apply bind_Ret in H as (w & Hw & H).
  apply bind_Ret in Hw as (data & _ & Hw).
  apply bind_Ret in Hw as ([[[nch sw] fr] chunk] & _ & [= <-]).
  cbn [w_nchannels w_sampwidth] in H.
  destruct (negb (nch =? 2)); [discriminate|].
  destruct (2 <? sw); [discriminate|].
  injection H as <-. eexists. repeat split.
Qed.

Lemma init_binary_Ret (parse : string -> result ParsedFilename)
    (fs : FileSystem) (self0 self : Input) :
  init_binary bytes_per_sample parse fs self0 = Ret self ->
  exists data, fs (_source self0) = Ret data /\
               _file self = Some (mkBufferedReader data 0 false) /\
               _wav_file self = _wav_file self0.
Proof.
  unfold init_binary, builtin_open. intros H.
  apply bind_Ret in H as (f & Hf & H).
  apply bind_Ret in Hf as (data & Hdata & [= <-]).
  apply bind_Ret in H as ([[[[ok dt] cflag] sr] cf] & _ & H).
  exists data. split; [exact Hdata|].
  destruct ok; [destruct cflag; [destruct (negb (PrimFloat.eqb cf 0))|]|];
    try discriminate; injection H as <-; split; reflexivity.
Qed.

(** What a successful construction leaves: see [fresh]; a raw-binary
    source holds the content of the file at its path. *)
Lemma init_with_Ret (parse : string -> result ParsedFilename)
    (fs : FileSystem) (file_name : string) (n : nat) (data_type : string)
    (sample_rate centre_frequency : float) (self : Input) :
  init_with parse fs file_name n data_type sample_rate centre_frequency
    = Ret self ->
  fresh self /\
  (_wav_file self = None ->
   exists data, fs file_name = Ret data /\
                _file self = Some (mkBufferedReader data 0 false)).
Proof.
  unfold Input_init_with. intros H.
  apply bind_Ret in H as (self1 & H & [= <-]).
  apply except_WaveError_Ret in H as [H|[_ H]].
  - apply init_wave_Ret in H as (w & Hw & Hf & Hp & Hc).
    cbn [_file DataSource_init] in Hf. split.
    + repeat split. right. exists w. destruct self1. cbn in *. auto.
    + destruct self1. cbn in *. congruence.
  - assert (Hb : init_binary bytes_per_sample parse fs
                   (DataSource_init bytes_per_sample file_name n data_type
                      sample_rate centre_frequency) = Ret self1).
    { destruct (init_binary _ _ _ _) as [x|[]]; cbn [except_OSError] in H;
        try discriminate; exact H. }
    apply init_binary_Ret in Hb as (data & Hdata & Hf & Hw).
    cbn [_source _wav_file DataSource_init] in Hdata, Hw. split.
    + repeat split. left. exists data. destruct self1. cbn in *. auto.
    + intros _. exists data. destruct self1. cbn in *. auto.
Qed.

(** The branch of lines 158-161, on the constructor taken over the parser
    it calls: a parser answer of [ok = True] with the complex flag cleared,
    on a path that is not a wave file and opens as a binary file, makes the
    constructor raise [ValueError]. [parse_filename] never gives that
    answer ([parse_filename_ok_is_complex]). *)
Lemma init_refuses_real (parse : string -> result ParsedFilename)
    (fs : FileSystem) (file_name : string) (n : nat) (data_type : string)
    (sample_rate centre_frequency : float) (data : bytes) (msg : string)
    (encoding : string) (sample_rate_hz centre_frequency_fn : float) :
  fs file_name = Ret data ->
  wave_header data = Raise (WaveError msg) ->
  parse file_name =
    Ret (true, encoding, false, sample_rate_hz, centre_frequency_fn) ->
  init_with parse fs file_name n data_type sample_rate centre_frequency =
  Raise (ValueError ("Error: Unsupported input of 'real' from " ++ file_name)).
Proof.
  intros Hfs Hwav Hparse.
  unfold Input_init_with, init_wave, init_binary, wave_open, builtin_open.
  cbn [_source DataSource_init set_file].
  rewrite Hfs. cbn [bind]. rewrite Hwav, Hparse. reflexivity.
Qed.

(** A path that [open] refuses with [OSError] makes the constructor raise
    that very [OSError]: [wave.open] meets it first, outside the reach of
    [except wave.Error], and the wrapping handler of line 166 is never
    entered. *)
Lemma init_unopenable (parse : string -> result ParsedFilename)
    (fs : FileSystem) (file_name : string) (n : nat) (data_type : string)
    (sample_rate centre_frequency : float) (msg : string) :
  fs file_name = Raise (OSError msg) ->
  init_with parse fs file_name n data_type sample_rate centre_frequency =
  Raise (OSError msg).
Proof.
  intros Hfs. unfold Input_init_with, init_wave, wave_open.
  cbn [_source DataSource_init]. rewrite Hfs. reflexivity.
Qed.

(** ** Reading *)

Lemma read_raw_full (data : bytes) (pos : nat) (now : Z) (self : Input) :
  _wav_file self = None ->
  time_sleep (_sleep_time self) = Ret tt ->
  pos + _bytes_per_snap self <= List.length data ->
  read now (at_pos data pos self) =
  (Ret (Some (unpack_data (_data_type self)
                (firstn (_bytes_per_snap self) (skipn pos data))), now),
   at_pos data (pos + _bytes_per_snap self) self).
Proof.
  intros Hw Hs Hlen. destruct self as [src n dt sr cf bps w f c st].
  cbn in Hw, Hs, Hlen |- *. subst w.
  unfold read_cplx_samples, read_snapshot, fetch_file, file_read, try_OSError,
    bindM, assign, raise, ret, lift, at_pos.
  cbn.
  assert (Hn : List.length (firstn bps (skipn pos data)) = bps)
    by (rewrite length_firstn, length_skipn; lia).
  rewrite Hn, Nat.eqb_refl, Hs. reflexivity.
Qed.

Lemma read_raw_short (data : bytes) (pos : nat) (now : Z) (self : Input) :
  _wav_file self = None ->
  pos <= List.length data < pos + _bytes_per_snap self ->
  read now (at_pos data pos self) =
  (Raise (ValueError "End of file"),
   set_connected false (at_pos data (List.length data) self)).
Proof.
  intros Hw Hlen. destruct self as [src n dt sr cf bps w f c st].
  cbn in Hw, Hlen |- *. subst w.
  unfold read_cplx_samples, read_snapshot, fetch_file, file_read, try_OSError,
    bindM, assign, raise, ret, lift, at_pos.
  cbn.
  assert (Hn : List.length (firstn bps (skipn pos data)) = List.length data - pos)
    by (rewrite length_firstn, length_skipn; lia).
  rewrite Hn.
  replace (List.length data - pos =? bps) with false
    by (symmetry; apply Nat.eqb_neq; lia).
  replace (pos + (List.length data - pos)) with (List.length data) by lia.
  reflexivity.
Qed.

Lemma read_times_raw (data : bytes) (self : Input) (times : list Z) (i : nat) :
  _wav_file self = None ->
  time_sleep (_sleep_time self) = Ret tt ->
  (i + List.length times) * _bytes_per_snap self <= List.length data ->
  reads times (at_pos data (i * _bytes_per_snap self) self) =
  (map (fun it => Ret (Some (unpack_data (_data_type self)
                               (snapshot data (_bytes_per_snap self) (fst it))),
                       snd it))
       (combine (seq i (List.length times)) times),
   at_pos data ((i + List.length times) * _bytes_per_snap self) self).
Proof.
  intros Hw Hs. revert i.
  induction times as [|now rest IH]; intros i Hlen; cbn [read_times].
  - cbn. now rewrite Nat.add_0_r.
  - cbn [List.length] in Hlen.
    assert (Hfit : i * _bytes_per_snap self + _bytes_per_snap self
                   <= List.length data).
    { rewrite Nat.mul_add_distr_r, Nat.mul_succ_l in Hlen. lia. }
    rewrite (read_raw_full data _ now self Hw Hs Hfit).
    replace (i * _bytes_per_snap self + _bytes_per_snap self)
      with (S i * _bytes_per_snap self) by lia.
    rewrite IH by (rewrite Nat.add_succ_comm; exact Hlen).
    cbn. unfold snapshot at 1. do 2 f_equal. lia.
Qed.

Lemma at_pos_same (data : bytes) (pos : nat) (self : Input) :
  _file self = Some (mkBufferedReader data pos false) ->
  at_pos data pos self = self.
Proof. destruct self. cbn. now intros ->. Qed.

(** C5. A raw-binary source built on a file of [k * bytes_per_snap + r]
    bytes, [0 < r < bytes_per_snap]: the first [k] reads succeed, each with
    the next whole snapshot and the connected flag still set; the read
    after them raises [ValueError("End of file")], returns no samples and
    leaves the connected flag cleared. *)
Theorem read_until_end_of_file (fs : FileSystem) (file_name : string)
    (n : nat) (data_type : string) (sample_rate centre_frequency : float)
    (self : Input) (data : bytes) (k r : nat) (times : list Z) (now : Z) :
  init fs file_name n data_type sample_rate centre_frequency = Ret self ->
  _wav_file self = None ->
  fs file_name = Ret data ->
  List.length data = k * _bytes_per_snap self + r ->
  0 < r < _bytes_per_snap self ->
  time_sleep 0%float = Ret tt ->
  List.length times = k ->
  exists self_k self_end,
    reads times self =
      (map (fun it => Ret (Some (unpack_data (_data_type self)
                                   (snapshot data (_bytes_per_snap self) (fst it))),
                           snd it))
           (combine (seq 0 k) times), self_k) /\
    _connected self_k = true /\
    read now self_k = (Raise (ValueError "End of file"), self_end) /\
    _connected self_end = false.
Proof.
  intros Hinit Hraw Hfs Hlen Hr Hsleep Hk.
  apply init_with_Ret in Hinit as [(Hc & Hst & _) Hdata].
  destruct (Hdata Hraw) as (data' & Hfs' & Hfile).
  assert (data' = data) by congruence. subst data'.
  rewrite <- Hst in Hsleep.
  exists (at_pos data (k * _bytes_per_snap self) self).
  exists (set_connected false (at_pos data (List.length data) self)).
  repeat split.
  - rewrite <- (at_pos_same data 0 self Hfile) at 1.
    rewrite <- Hk.
    apply (read_times_raw data self times 0 Hraw Hsleep).
    cbn [Nat.add]. rewrite Hk. lia.
  - destruct self. exact Hc.
  - apply read_raw_short; [exact Hraw|lia].
Qed.

(** ** Rewinding and closing *)

Ltac unfold_read :=
  unfold read_cplx_samples, read_snapshot, fetch_wav, fetch_file,
    wave_readframes, file_read, try_OSError, bindM, assign, raise, ret, lift.

Ltac read_cases self :=
  let w := fresh "w" in
  let f := fresh "f" in
  let wc := fresh "wc" in
  let fc := fresh "fc" in
  destruct self as [? ? ? ? ? ? [w|] [f|] ? ?];
  try (destruct w as [? ? ? ? ? wc]; destruct wc);
  try (destruct f as [? ? fc]; destruct fc);
  cbn;
  repeat match goal with
         | |- context [negb (?a =? ?b)] => destruct (negb (a =? b)); cbn
         | |- context [time_sleep ?t] =>
             let e := fresh "e" in
             destruct (time_sleep t) as [[]|e]; cbn; try destruct e; cbn
         end.

Lemma read_rewound (now : Z) (self : Input) :
  rewound (snd (read now self)) = rewound self.
Proof. unfold_read. read_cases self; reflexivity. Qed.

Lemma read_raw_closed (now : Z) (self : Input) :
  raw_closed (snd (read now self)) = raw_closed self.
Proof. unfold_read. read_cases self; reflexivity. Qed.

Lemma read_handles (now : Z) (self : Input) :
  is_set (_wav_file (snd (read now self))) = is_set (_wav_file self) /\
  is_set (_file (snd (read now self))) = is_set (_file self).
Proof. unfold_read. read_cases self; split; reflexivity. Qed.

(** The time of the call shows in the time returned and nowhere else. *)
Lemma read_at_another_time (now now' : Z) (self self1 : Input)
    (v : option cplx_array * Z) :
  is_set (_wav_file self) || is_set (_file self) = true ->
  read now self = (Ret v, self1) ->
  read now' self = (Ret (fst v, now'), self1).
Proof.
  unfold_read. read_cases self; intros Hset H; try discriminate;
    injection H as <- <-; reflexivity.
Qed.

Lemma reconnect_open (self : Input) :
  is_set (_wav_file self) || is_set (_file self) = true ->
  raw_closed self = false ->
  reconnect self = (Ret true, rewound self).
Proof.
  unfold reconnect, file_seek0, bindM, assign, ret, lift, rewound, raw_closed.
  destruct self as [? ? ? ? ? ? [w|] [f|] ? ?]; cbn; try discriminate;
    try reflexivity.
  destruct f as [? ? []]; cbn; [discriminate|reflexivity].
Qed.

Lemma reconnect_closed (self : Input) :
  raw_closed self = true ->
  reconnect self = (Raise closed_file, set_connected false self).
Proof.
  unfold reconnect, file_seek0, bindM, assign, ret, lift, raw_closed.
  destruct self as [? ? ? ? ? ? [w|] [f|] ? ?]; cbn; try discriminate.
  destruct f as [? ? []]; cbn; [reflexivity|discriminate].
Qed.

Lemma fresh_rewound (self : Input) :
  fresh self ->
  rewound self = self /\ raw_closed self = false /\
  xorb (is_set (_wav_file self)) (is_set (_file self)) = true.
Proof.
  intros (Hc & _ & [(data & Hw & Hf)|(w & Hw & Hf & Hp & Hcl)]);
    destruct self as [? ? ? ? ? ? wav file ? ?]; cbn in *; subst;
    unfold rewound, raw_closed; cbn; [auto|].
  destruct w; cbn in *; subst; auto.
Qed.

Lemma read_to_exhaustion_rewound (self self' : Input) :
  exhausted self self' ->
  rewound self' = rewound self /\ raw_closed self' = raw_closed self /\
  is_set (_wav_file self') = is_set (_wav_file self) /\
  is_set (_file self') = is_set (_file self).
Proof.
  induction 1 as [now self self' H|now v self self1 self' H _ IH].
  - pose proof (read_rewound now self) as Hr.
    pose proof (read_raw_closed now self) as Hc.
    pose proof (read_handles now self) as Hh.
    rewrite H in Hr, Hc, Hh. cbn [snd] in Hr, Hc, Hh. tauto.
  - pose proof (read_rewound now self) as Hr.
    pose proof (read_raw_closed now self) as Hc.
    pose proof (read_handles now self) as Hh.
    rewrite H in Hr, Hc, Hh. cbn [snd] in Hr, Hc, Hh.
    destruct IH as (-> & -> & -> & ->). tauto.
Qed.

(** C6 (amended). On a constructed source whose first read succeeded and
    which has then been read to the end of the stream, [reconnect] returns
    [True] and leaves the object as construction left it, cursor at 0 and
    connected flag set; a read after it returns the samples of the first
    read and leaves the object as the first read left it. *)
Theorem reconnect_round_trip (fs : FileSystem) (file_name : string)
    (n : nat) (data_type : string) (sample_rate centre_frequency : float)
    (self0 self1 self_end : Input) (now0 : Z) (v : option cplx_array * Z) :
  init fs file_name n data_type sample_rate centre_frequency = Ret self0 ->
  read now0 self0 = (Ret v, self1) ->
  exhausted self0 self_end ->
  reconnect self_end = (Ret true, self0) /\
  cursor self0 = 0 /\
  _connected self0 = true /\
  forall now, read now self0 = (Ret (fst v, now), self1).
Proof.
  intros Hinit Hfirst Hend.
  apply init_with_Ret in Hinit as [Hfresh _].
  destruct (fresh_rewound self0 Hfresh) as (Hrew & Hopen & Hone).
  destruct (read_to_exhaustion_rewound self0 self_end Hend)
    as (Hr & Hc & Hw & Hf).
  assert (Hset : is_set (_wav_file self0) || is_set (_file self0) = true)
    by (destruct (is_set (_wav_file self0)), (is_set (_file self0));
        trivial; discriminate).
  repeat split.
  - rewrite reconnect_open; [congruence| |congruence].
    now rewrite Hw, Hf.
  - destruct Hfresh as (_ & _ & [(data & Hw0 & Hf0)|(w & Hw0 & Hf0 & Hp & _)]);
      unfold cursor; rewrite Hw0, ?Hf0; trivial.
  - apply Hfresh.
  - intros now. now apply (read_at_another_time now0).
Qed.

(** C9. [close] never raises, whatever the state of the object; it leaves
    the connected flag cleared, and a second [close] does not raise either
    and changes nothing more. *)
Theorem close_idempotent (self : Input) :
  exists self',
    close self = (Ret tt, self') /\
    _connected self' = false /\
    close self' = (Ret tt, self').
Proof.
  eexists. split; [reflexivity|].
  destruct self as [? ? ? ? ? ? [w|] [f|] ? ?]; split; reflexivity.
Qed.

Lemma after_call_handles (self : Input) (c : call) :
  is_set (_wav_file (after_one self c)) = is_set (_wav_file self) /\
  is_set (_file (after_one self c)) = is_set (_file self).
Proof.
  destruct c as [now| | |t]; cbn [after_call].
  - apply read_handles.
  - destruct self as [? ? ? ? ? ? [w|] [f|] ? ?]; split; reflexivity.
  - unfold reconnect, file_seek0, bindM, assign, ret, lift.
    destruct self as [? ? ? ? ? ? [w|] [f|] ? ?]; cbn;
      try (destruct f as [? ? []]; cbn); split; reflexivity.
  - destruct self; split; reflexivity.
Qed.

Lemma after_calls_handles (calls : list call) (self : Input) :
  is_set (_wav_file (after calls self)) = is_set (_wav_file self) /\
  is_set (_file (after calls self)) = is_set (_file self).
Proof.
  revert self. induction calls as [|c calls IH]; intros self; [now split|].
  change (after (c :: calls) self)
    with (after calls (after_one self c)).
  destruct (IH (after_one self c)) as [-> ->].
  apply after_call_handles.
Qed.

(** C10 (amended). After a successful construction and any sequence of
    reads, closes, reconnects and delay settings, exactly one of the two
    handles is set, the same one as at construction; [reconnect] then
    never returns [False]: it returns [True] with the connected flag set,
    except on a raw-binary source that has been closed, where the seek
    raises [ValueError] and the connected flag is left cleared. *)
Theorem handles_never_cleared (fs : FileSystem) (file_name : string)
    (n : nat) (data_type : string) (sample_rate centre_frequency : float)
    (self0 : Input) (calls : list call) :
  init fs file_name n data_type sample_rate centre_frequency = Ret self0 ->
  xorb (is_set (_wav_file (after calls self0)))
       (is_set (_file (after calls self0))) = true /\
  is_set (_wav_file (after calls self0)) = is_set (_wav_file self0) /\
  is_set (_file (after calls self0)) = is_set (_file self0) /\
  exists self',
    (raw_closed (after calls self0) = false /\
     reconnect (after calls self0) = (Ret true, self') /\
     _connected self' = true) \/
    (raw_closed (after calls self0) = true /\
     reconnect (after calls self0) = (Raise closed_file, self') /\
     _connected self' = false).
Proof.
  intros Hinit. apply init_with_Ret in Hinit as [Hfresh _].
  destruct (fresh_rewound self0 Hfresh) as (_ & _ & Hone).
  destruct (after_calls_handles calls self0) as [Hw Hf].
  rewrite Hw, Hf. repeat split; trivial.
  destruct (raw_closed (after calls self0)) eqn:Hc.
  - exists (set_connected false (after calls self0)). right.
    split; [reflexivity|]. split; [now apply reconnect_closed|reflexivity].
  - exists (rewound (after calls self0)). left.
    split; [reflexivity|]. split; [|reflexivity].
    apply reconnect_open; [|exact Hc]. rewrite Hw, Hf.
    destruct (is_set (_wav_file self0)), (is_set (_file self0));
      trivial; discriminate.
Qed.

End InputProperties.

(** C2. A file that is not a wave file and whose name is marked [real] is
    accepted: the parser answers [ok = False] for it, so the constructor
    keeps the caller's encoding and rate and builds the source, where
    lines 158-161 mean to raise [ValueError]. *)
Theorem init_accepts_real :
  Sample.init Sample.files "x.real.10000.16tbe" 1 "16tle" 48000%float 0%float =
  Ret (mkInput "x.real.10000.16tbe" 1 "16tle" 48000%float 0%float 4 None
         (Some (mkBufferedReader Sample.eight 0 false)) true 0%float).
Proof. reflexivity. Qed.

(** C4. Constructing a source on a path that does not exist raises the
    [OSError] of [open], not a [ValueError]. *)
Theorem init_missing_file_raises_OSError :
  Sample.init Sample.files "missing.cplx.48000.16tle" 1 "16tle" 48000%float 0%float =
  Raise (OSError "[Errno 2] No such file or directory: missing.cplx.48000.16tle").
Proof. reflexivity. Qed.

(** C5 holds on a file of nine bytes read in snapshots of two. *)
Lemma read_until_end_of_file_witness :
  exists self_k self_end,
    read_times bytes Sample.unpack_data Sample.time_sleep
      [10%Z; 20%Z; 30%Z; 40%Z] Sample.capture =
      ([Ret (Some [Byte.x01; Byte.x02], 10%Z);
        Ret (Some [Byte.x03; Byte.x04], 20%Z);
        Ret (Some [Byte.x05; Byte.x06], 30%Z);
        Ret (Some [Byte.x07; Byte.x08], 40%Z)], self_k) /\
    _connected self_k = true /\
    Sample.read 50%Z self_k = (Raise (ValueError "End of file"), self_end) /\
    _connected self_end = false.
Proof.
  apply (read_until_end_of_file Sample.py_float Sample.supported_data_types
           Sample.wave_header bytes Sample.unpack_data Sample.bytes_per_sample
           Sample.time_sleep Sample.files "x.cplx.48000.8t" 1 "16tle"
           1%float 0%float Sample.capture Sample.nine 4 1
           [10%Z; 20%Z; 30%Z; 40%Z] 50%Z); try reflexivity.
  cbn; lia.
Defined.

(** C6 holds on the same file: four reads, the end of the file, then
    [reconnect] and the first snapshot again. *)
Lemma reconnect_round_trip_witness :
  reconnect (Sample.capture_at 9 false) = (Ret true, Sample.capture) /\
  cursor Sample.capture = 0 /\
  _connected Sample.capture = true /\
  forall now, Sample.read now Sample.capture =
              (Ret (Some [Byte.x01; Byte.x02], now), Sample.capture_at 2 true).
Proof.
  apply (reconnect_round_trip Sample.py_float Sample.supported_data_types
           Sample.wave_header bytes Sample.unpack_data Sample.bytes_per_sample
           Sample.time_sleep Sample.files "x.cplx.48000.8t" 1 "16tle"
           1%float 0%float Sample.capture (Sample.capture_at 2 true)
           (Sample.capture_at 9 false) 10%Z
           (Some [Byte.x01; Byte.x02], 10%Z)).
  - reflexivity.
  - reflexivity.
  - apply (exhausted_later bytes Sample.unpack_data Sample.time_sleep 10%Z
             (Some [Byte.x01; Byte.x02], 10%Z) Sample.capture
             (Sample.capture_at 2 true)); [reflexivity|].
    apply (exhausted_later bytes Sample.unpack_data Sample.time_sleep 20%Z
             (Some [Byte.x03; Byte.x04], 20%Z) (Sample.capture_at 2 true)
             (Sample.capture_at 4 true)); [reflexivity|].
    apply (exhausted_later bytes Sample.unpack_data Sample.time_sleep 30%Z
             (Some [Byte.x05; Byte.x06], 30%Z) (Sample.capture_at 4 true)
             (Sample.capture_at 6 true)); [reflexivity|].
    apply (exhausted_later bytes Sample.unpack_data Sample.time_sleep 40%Z
             (Some [Byte.x07; Byte.x08], 40%Z) (Sample.capture_at 6 true)
             (Sample.capture_at 8 true)); [reflexivity|].
    apply (exhausted_now bytes Sample.unpack_data Sample.time_sleep 50%Z
             (Sample.capture_at 8 true)). reflexivity.
Defined.

(** C6 as stated fails on a file shorter than one snapshot, here nine
    bytes for snapshots of sixteen: the source is built, its first read is
    the end of the file, [reconnect] returns [True], and the read after it
    fails in the same way. *)
Lemma reconnect_short_file :
  Sample.init Sample.files "short.cplx.48000.16tle" 4 "8t" 1%float 0%float =
    Ret (Sample.short_at 0 true) /\
  Sample.read 10%Z (Sample.short_at 0 true) =
    (Raise (ValueError "End of file"), Sample.short_at 9 false) /\
  reconnect (Sample.short_at 9 false) = (Ret true, Sample.short_at 0 true) /\
  Sample.read 20%Z (Sample.short_at 0 true) =
    (Raise (ValueError "End of file"), Sample.short_at 9 false).
Proof. repeat split. Qed.

(** C10 holds on a run that reads, closes, reconnects and sets a delay. *)
Lemma handles_never_cleared_witness :
  xorb (is_set (_wav_file (after_calls bytes Sample.unpack_data Sample.time_sleep
                             [Read 10%Z; Close; Reconnect; SetSleepTime 1%float]
                             Sample.capture)))
       (is_set (_file (after_calls bytes Sample.unpack_data Sample.time_sleep
                         [Read 10%Z; Close; Reconnect; SetSleepTime 1%float]
                         Sample.capture))) = true /\
  is_set (_wav_file (after_calls bytes Sample.unpack_data Sample.time_sleep
                       [Read 10%Z; Close; Reconnect; SetSleepTime 1%float]
                       Sample.capture)) = is_set (_wav_file Sample.capture) /\
  is_set (_file (after_calls bytes Sample.unpack_data Sample.time_sleep
                   [Read 10%Z; Close; Reconnect; SetSleepTime 1%float]
                   Sample.capture)) = is_set (_file Sample.capture) /\
  exists self',
    (raw_closed (after_calls bytes Sample.unpack_data Sample.time_sleep
                   [Read 10%Z; Close; Reconnect; SetSleepTime 1%float]
                   Sample.capture) = false /\
     reconnect (after_calls bytes Sample.unpack_data Sample.time_sleep
                  [Read 10%Z; Close; Reconnect; SetSleepTime 1%float]
                  Sample.capture) = (Ret true, self') /\
     _connected self' = true) \/
    (raw_closed (after_calls bytes Sample.unpack_data Sample.time_sleep
                   [Read 10%Z; Close; Reconnect; SetSleepTime 1%float]
                   Sample.capture) = true /\
     reconnect (after_calls bytes Sample.unpack_data Sample.time_sleep
                  [Read 10%Z; Close; Reconnect; SetSleepTime 1%float]
                  Sample.capture) = (Raise closed_file, self') /\
     _connected self' = false).
Proof.
  apply (handles_never_cleared Sample.py_float Sample.supported_data_types
           Sample.wave_header bytes Sample.unpack_data Sample.bytes_per_sample
           Sample.time_sleep Sample.files "x.cplx.48000.8t" 1 "16tle"
           1%float 0%float Sample.capture
           [Read 10%Z; Close; Reconnect; SetSleepTime 1%float]).
  reflexivity.
Defined.

(** C10 as stated fails on a raw-binary source that has been closed, here
    one built on a file of nine bytes: [reconnect] raises at the seek
    instead of returning [True], and leaves the connected flag cleared. *)
Lemma reconnect_after_close_raises :
  Sample.init Sample.files "x.cplx.48000.8t" 1 "16tle" 1%float 0%float =
    Ret Sample.capture /\
  fst (close Sample.capture) = Ret tt /\
  fst (reconnect (snd (close Sample.capture))) =
    Raise (ValueError "seek of closed file") /\
  _connected (snd (reconnect (snd (close Sample.capture)))) = false.
Proof. repeat split. Qed.

(** * Further properties of the parser *)

Module ListFacts.
Import Py PyFacts Grammar.

Lemma split_length (sep : ascii) (s : string) :
  List.length (split sep s) = S (count sep s).
Proof.
  induction s as [|c s IH]; [reflexivity|]. cbn [split count].
  destruct (Ascii.eqb c sep); cbn [List.length Nat.add]; [now rewrite IH|].
  destruct (split sep s); cbn [List.length] in *; [discriminate|exact IH].
Qed.

Lemma indices_from_length (A : Type) (p : A -> bool) (l : list A) (n : nat) :
  List.length (indices_from p n l) = List.length (filter p l).
Proof.
  revert n. induction l as [|x l IH]; intros n; [reflexivity|].
  cbn [indices_from filter]. destruct (p x); cbn [List.length]; now rewrite IH.
Qed.

(** Every index that [indices] lists is in range and selects an element
    that satisfies the test. *)
Lemma indices_from_In (A : Type) (p : A -> bool) (l : list A) (n i : nat) :
  In i (indices_from p n l) ->
  n <= i /\ exists x, nth_error l (i - n) = Some x /\ p x = true.
Proof.
  revert n. induction l as [|x l IH]; intros n; [contradiction|].
  cbn [indices_from]. destruct (p x) eqn:Hx.
  - intros [<-|Hin].
    + split; [lia|]. exists x. now rewrite Nat.sub_diag.
    + destruct (IH (S n) Hin) as (Hle & y & Hy & Hp). split; [lia|].
      exists y. split; [|exact Hp].
      replace (i - n) with (S (i - S n)) by lia. exact Hy.
  - intros Hin. destruct (IH (S n) Hin) as (Hle & y & Hy & Hp). split; [lia|].
    exists y. split; [|exact Hp].
    replace (i - n) with (S (i - S n)) by lia. exact Hy.
Qed.

Lemma index_nonneg_Ret (A : Type) (l : list A) (i : nat) (x : A) :
  nth_error l i = Some x -> index l (Z.of_nat i) = Ret x.
Proof.
  intros H. unfold index.
  destruct (Z.ltb_spec (Z.of_nat i) 0) as [Hlt|_]; [lia|].
  destruct (Z.ltb_spec (Z.of_nat i) 0) as [Hlt|_]; [lia|].
  now rewrite Nat2Z.id, H.
Qed.

Lemma last4 (A : Type) (l : list A) :
  4 <= List.length l ->
  exists pre x4 x3 x2 x1, l = pre ++ [x4; x3; x2; x1].
Proof.
  intros H. exists (firstn (List.length l - 4) l).
  pose proof (firstn_skipn (List.length l - 4) l) as Hs.
  pose proof (length_skipn (List.length l - 4) l) as Hl.
  destruct (skipn (List.length l - 4) l) as [|x4 [|x3 [|x2 [|x1 [|y t]]]]];
    cbn [List.length] in Hl; try lia.
  exists x4, x3, x2, x1. now symmetry.
Qed.

Lemma nth_error_last (A : Type) (pre : list A) (x y : A) :
  nth_error (pre ++ [x]) (List.length pre) = Some y -> y = x.
Proof.
  rewrite nth_error_app2, Nat.sub_diag by lia. cbn. congruence.
Qed.

End ListFacts.

Section ParserExtras.
Import Py PyFacts Grammar GrammarFacts ListFacts.

Variable py_float : string -> option float.
Variable supported_data_types : list string.

Local Abbreviation parse := (parse_filename py_float supported_data_types).
Local Abbreviation centre := (parse_centre_frequency py_float).
Local Abbreviation check := (check_fields py_float supported_data_types).

(** The parser on a filename with at least four fields: the centre
    frequency, then the checks on the three fields read from the end. *)
Lemma parse_filename_fields (filename : string) (pre : list string)
    (x4 x3 x2 x1 : string) :
  fields filename = pre ++ [x4; x3; x2; x1] ->
  parse filename =
  (cf <- centre filename (pre ++ [x4; x3; x2; x1]) ;;
   Ret (check x3 x2 x1 cf)).
Proof.
  intros Hf. unfold parse_filename.
  change (map strip (split "." filename)) with (fields filename).
  rewrite Hf.
  destruct (index_last4 pre x4 x3 x2 x1) as (H1 & H2 & H3 & _).
  rewrite H1, H2, H3.
  replace (4 <=? List.length (pre ++ [x4; x3; x2; x1])) with true
    by (symmetry; apply Nat.leb_le; rewrite length_app; simpl; lia).
  destruct filename as [|c filename].
  - apply (f_equal (@List.length string)) in Hf.
    rewrite length_app in Hf. cbn in Hf. lia.
  - cbn [bind]; unfold check_fields;
      destruct (centre _ _); cbn [bind]; trivial;
      destruct (mem x3 markers); trivial;
      destruct (negb (String.eqb x3 "cplx")); trivial;
      destruct (mem x1 supported_data_types); trivial;
      destruct (py_float x2); trivial.
Qed.

Lemma index_succ_None (parts : list string) (i : nat) :
  nth_error parts (S i) = None ->
  index parts (Z.of_nat i + 1) = Raise (IndexError "list index out of range").
Proof.
  intros H. unfold index.
  destruct (Z.ltb_spec (Z.of_nat i + 1) 0) as [Hlt|_]; [lia|].
  destruct (Z.ltb_spec (Z.of_nat i + 1) 0) as [Hlt|_]; [lia|].
  replace (Z.to_nat (Z.of_nat i + 1)) with (S i) by lia. now rewrite H.
Qed.

Lemma index_succ_Some (parts : list string) (i : nat) (x : string) :
  nth_error parts (S i) = Some x ->
  index parts (Z.of_nat i + 1) = Ret x.
Proof.
  intros H. replace (Z.of_nat i + 1)%Z with (Z.of_nat (S i)) by lia.
  now apply index_nonneg_Ret.
Qed.

(** The centre frequency is recovered, or left at 0.0, unless the one
    field that contains [cf] is the last: then [parts[index + 1]] raises. *)
Lemma centre_cases (filename : string) (parts : list string) :
  4 <= List.length parts ->
  (exists cf, centre filename parts = Ret cf) \/
  (centre filename parts = Raise (IndexError "list index out of range") /\
   contains ".cf" filename = true /\
   List.length (filter (contains "cf") parts) = 1 /\
   exists pre last, parts = pre ++ [last] /\ contains "cf" last = true).
Proof.
  intros Hlen. unfold parse_centre_frequency.
  destruct (contains ".cf" filename) eqn:Hdot; [|left; eauto].
  destruct (indices (contains "cf") parts) as [|i [|j t]] eqn:Hi;
    [left; eauto| |left; eauto].
  assert (Hin : In i (indices_from (contains "cf") 0 parts))
    by (unfold indices in Hi; rewrite Hi; now left).
  apply indices_from_In in Hin as (_ & x & Hx & Hp).
  rewrite Nat.sub_0_r in Hx.
  rewrite (index_nonneg_Ret _ parts i x Hx). cbn [bind].
  destruct (nth_error parts (S i)) as [next|] eqn:Hnext.
  - left. rewrite (index_succ_Some parts i next Hnext). cbn [bind].
    destruct (last4 _ parts Hlen) as (pre & x4 & x3 & x2 & x1 & ->).
    destruct (index_last4 pre x4 x3 x2 x1) as (_ & _ & _ & H4). rewrite H4.
    cbn [bind].
    destruct (mem next markers);
      [destruct (py_float (drop 2 x))|
       destruct (py_float (drop 2 x ++ "." ++ x4)%string)]; eauto.
  - right. rewrite (index_succ_None parts i Hnext). cbn [bind].
    repeat split; trivial.
    + unfold indices in Hi.
      now rewrite <- (indices_from_length _ (contains "cf") parts 0), Hi.
    + apply nth_error_split in Hx as (l1 & l2 & -> & Hl1).
      apply nth_error_None in Hnext. rewrite length_app in Hnext.
      cbn [List.length] in Hnext.
      destruct l2; [|cbn [List.length] in Hnext; lia].
      exists l1, x. now split.
Qed.

(** X1. A filename with fewer than three dots, the empty one included,
    is answered with [ok = False] and every other field at its default;
    nothing is extracted and nothing is raised. *)
Theorem parse_filename_few_fields (filename : string) :
  count "." filename < 3 ->
  parse filename = Ret (false, "", true, 0%float, 0%float).
Proof.
  intros Hc. unfold parse_filename.
  destruct filename as [|c filename]; [reflexivity|].
  rewrite length_map, split_length.
  replace (4 <=? S (count "." (String c filename))) with false
    by (symmetry; apply Nat.leb_gt; lia).
  reflexivity.
Qed.

(** X2. The only exception [parse_filename] raises is [IndexError], and
    only on a filename that contains [.cf] and whose last field is the
    one field that contains [cf]. *)
Theorem parse_filename_raises_only_IndexError (filename : string) (e : exn) :
  parse filename = Raise e ->
  e = IndexError "list index out of range" /\
  contains ".cf" filename = true /\
  List.length (cf_fields filename) = 1 /\
  exists pre last, fields filename = pre ++ [last] /\
                   contains "cf" last = true.
Proof.
  intros H.
  destruct (Nat.lt_ge_cases (count "." filename) 3) as [Hc|Hc].
  - rewrite (parse_filename_few_fields filename Hc) in H. discriminate.
  - assert (Hlen : 4 <= List.length (fields filename))
      by (unfold fields; rewrite length_map, split_length; lia).
    destruct (last4 _ _ Hlen) as (pre & x4 & x3 & x2 & x1 & Hf).
    rewrite (parse_filename_fields filename pre x4 x3 x2 x1 Hf) in H.
    rewrite <- Hf in H.
    destruct (centre_cases filename (fields filename) Hlen)
      as [(cf & Hcf)|(Hr & Hdot & Hone & Hlast)].
    + rewrite Hcf in H. discriminate.
    + rewrite Hr in H. injection H as <-. auto.
Qed.

(** X3. Unless the filename contains [.cf] and exactly one of its fields
    contains [cf], the parser returns (it does not raise) and the centre
    frequency it returns is 0.0. *)
Theorem parse_filename_no_centre_frequency (filename : string) :
  contains ".cf" filename = false \/ List.length (cf_fields filename) <> 1 ->
  exists ok data_type complex_flag sample_rate_hz,
    parse filename =
    Ret (ok, data_type, complex_flag, sample_rate_hz, 0%float).
Proof.
  intros H.
  destruct (Nat.lt_ge_cases (count "." filename) 3) as [Hc|Hc].
  - rewrite (parse_filename_few_fields filename Hc). eauto.
  - assert (Hlen : 4 <= List.length (fields filename))
      by (unfold fields; rewrite length_map, split_length; lia).
    destruct (last4 _ _ Hlen) as (pre & x4 & x3 & x2 & x1 & Hf).
    rewrite (parse_filename_fields filename pre x4 x3 x2 x1 Hf).
    rewrite <- Hf.
    assert (Hcf : centre filename (fields filename) = Ret 0%float).
    { unfold parse_centre_frequency.
      destruct (contains ".cf" filename); [|reflexivity].
      destruct H as [H|H]; [discriminate|].
      unfold cf_fields in H.
      rewrite <- (indices_from_length _ (contains "cf") (fields filename) 0)
        in H.
      unfold indices.
      destruct (indices_from (contains "cf") 0 (fields filename))
        as [|i [|j t]]; trivial. now contradiction H. }
    rewrite Hcf. cbn [bind]. unfold check_fields.
    destruct (mem x3 markers), (negb (String.eqb x3 "cplx")),
      (mem x1 supported_data_types), (py_float x2); eauto.
Qed.

(** X4. What [ok = True] guarantees: the complex flag is set, the encoding
    returned is the last field and belongs to the catalogue, the field
    before the rate is exactly [cplx], and the rate returned is [float] of
    the second field from the end. *)
Theorem parse_filename_ok_sound (filename data_type : string)
    (complex_flag : bool) (sample_rate_hz centre_frequency : float) :
  parse filename =
    Ret (true, data_type, complex_flag, sample_rate_hz, centre_frequency) ->
  complex_flag = true /\
  mem data_type supported_data_types = true /\
  exists pre x4 sample_rate,
    fields filename = pre ++ [x4; "cplx"; sample_rate; data_type] /\
    py_float sample_rate = Some sample_rate_hz.
Proof.
  intros H.
  destruct (Nat.lt_ge_cases (count "." filename) 3) as [Hc|Hc].
  - rewrite (parse_filename_few_fields filename Hc) in H. discriminate.
  - assert (Hlen : 4 <= List.length (fields filename))
      by (unfold fields; rewrite length_map, split_length; lia).
    destruct (last4 _ _ Hlen) as (pre & x4 & x3 & x2 & x1 & Hf).
    rewrite (parse_filename_fields filename pre x4 x3 x2 x1 Hf) in H.
    destruct (centre filename _) as [cf|]; cbn [bind] in H; [|discriminate].
    unfold check_fields in H.
    destruct (mem x3 markers); [|discriminate].
    destruct (String.eqb x3 "cplx") eqn:Hx3; cbn [negb] in H; [|discriminate].
    destruct (mem x1 supported_data_types) eqn:Hx1; [|discriminate].
    destruct (py_float x2) as [r|] eqn:Hx2; [|discriminate].
    injection H as <- <- <- <-. apply String.eqb_eq in Hx3. subst x3.
    repeat split; trivial. exists pre, x4, x2. now split.
Qed.

(** X5. Whatever comes before them, a [cplx] field followed by a rate
    that [float] converts and a tag of the catalogue that does not contain
    [cf] make the parser return [ok = True] with that tag and that rate. *)
Theorem parse_filename_ok_complete (filename : string) (pre : list string)
    (x4 sample_rate data_type : string) (sample_rate_hz : float) :
  fields filename = pre ++ [x4; "cplx"; sample_rate; data_type] ->
  py_float sample_rate = Some sample_rate_hz ->
  mem data_type supported_data_types = true ->
  contains "cf" data_type = false ->
  exists centre_frequency,
    parse filename =
    Ret (true, data_type, true, sample_rate_hz, centre_frequency).
Proof.
  intros Hf Hr Hm Hcf.
  rewrite (parse_filename_fields filename pre x4 "cplx" sample_rate data_type Hf).
  assert (Hlen : 4 <= List.length (pre ++ [x4; "cplx"; sample_rate; data_type]))
    by (rewrite length_app; cbn; lia).
  destruct (centre_cases filename _ Hlen)
    as [(cf & ->)|(_ & _ & _ & pre' & last & Hl & Hlast)].
  - exists cf. cbn [bind]. unfold check_fields.
    cbn [mem existsb markers String.eqb Ascii.eqb Bool.eqb orb negb].
    now rewrite Hm, Hr.
  - change (pre ++ [x4; "cplx"; sample_rate; data_type])
      with (pre ++ [x4; "cplx"; sample_rate] ++ [data_type]) in Hl.
    rewrite app_assoc in Hl. apply app_inj_tail in Hl as [_ <-].
    congruence.
Qed.

(** X6. In the short form a [cfN] field whose number [float] refuses
    leaves the centre frequency at 0.0 and changes nothing else: the
    [ValueError] is swallowed and [ok] stays [True]. *)
Theorem parse_filename_bad_centre_number (name N rate tag : string)
    (r : float) :
  plain N -> plain rate -> plain tag ->
  py_float N = None ->
  py_float rate = Some r ->
  mem tag supported_data_types = true ->
  List.length (cf_fields (name ++ ".cf" ++ N ++ ".cplx." ++ rate ++ "." ++ tag)%string) = 1 ->
  parse (name ++ ".cf" ++ N ++ ".cplx." ++ rate ++ "." ++ tag)%string =
  Ret (true, tag, true, r, 0%float).
Proof.
  intros HN Hrate Htag Hv Hr Hmem Hone.
  change (name ++ ".cf" ++ N ++ ".cplx." ++ rate ++ "." ++ tag)%string
    with (name ++ String "." (join "." ["cf" ++ N; "cplx"; rate; tag]))%string
    in *.
  assert (Hf : fields (name ++ String "." (join "." ["cf" ++ N; "cplx"; rate; tag]))%string
               = fields name ++ [("cf" ++ N)%string; "cplx"; rate; tag]).
  { apply fields_join; [discriminate|].
    repeat apply Forall_cons; try apply Forall_nil; trivial;
      [now apply plain_cf | now split]. }
  rewrite (parse_filename_fields _ _ _ _ _ _ Hf).
  unfold cf_fields in Hone. rewrite Hf in Hone.
  rewrite centre_single.
  - cbn [mem existsb markers String.eqb Ascii.eqb Bool.eqb orb drop append].
    rewrite Hv. cbn [bind]. unfold check_fields.
    cbn [mem existsb markers String.eqb Ascii.eqb Bool.eqb orb negb].
    now rewrite Hmem, Hr.
  - change (name ++ String "." (join "." ["cf" ++ N; "cplx"; rate; tag]))%string
      with (name ++ ".cf" ++ (N ++ String "." (join "." ["cplx"; rate; tag])))%string.
    apply contains_app.
  - apply (contains_app "cf" "" N).
  - exact Hone.
Qed.

End ParserExtras.

(** X1 on a filename of three fields. *)
Lemma parse_filename_few_fields_witness :
  Sample.parse "capture.cplx.48000" = Ret (false, "", true, 0%float, 0%float).
Proof.
  apply (parse_filename_few_fields Sample.py_float Sample.supported_data_types
           "capture.cplx.48000").
  cbn. lia.
Defined.

(** X2 on a filename whose tag field is the one that contains [cf]. *)
Lemma parse_filename_raises_only_IndexError_witness :
  IndexError "list index out of range" = IndexError "list index out of range" /\
  Py.contains ".cf" "x.cplx.48000.cf16" = true /\
  List.length (Grammar.cf_fields "x.cplx.48000.cf16") = 1 /\
  exists pre last, Grammar.fields "x.cplx.48000.cf16" = pre ++ [last] /\
                   Py.contains "cf" last = true.
Proof.
  apply (parse_filename_raises_only_IndexError Sample.py_float
           Sample.supported_data_types "x.cplx.48000.cf16"
           (IndexError "list index out of range")).
  reflexivity.
Defined.

(** X3 on a filename that starts with its [cf] field: no [.cf] in it. *)
Lemma parse_filename_no_centre_frequency_witness :
  exists ok data_type complex_flag sample_rate_hz,
    Sample.parse "cf100.cplx.48000.16tle" =
    Ret (ok, data_type, complex_flag, sample_rate_hz, 0%float).
Proof.
  apply (parse_filename_no_centre_frequency Sample.py_float
           Sample.supported_data_types "cf100.cplx.48000.16tle").
  left. reflexivity.
Defined.

(** X4 on a filename the parser accepts. *)
Lemma parse_filename_ok_sound_witness :
  true = true /\
  Py.mem "16tle" Sample.supported_data_types = true /\
  exists pre x4 sample_rate,
    Grammar.fields "x.cf100.cplx.48000.16tle" =
      pre ++ [x4; "cplx"; sample_rate; "16tle"] /\
    Sample.py_float sample_rate = Some 48000%float.
Proof.
  apply (parse_filename_ok_sound Sample.py_float Sample.supported_data_types
           "x.cf100.cplx.48000.16tle" "16tle" true 48000%float
           100000000%float).
  reflexivity.
Defined.

(** X5 on a path with dots and blanks in its directory part. *)
Lemma parse_filename_ok_complete_witness :
  exists centre_frequency,
    Sample.parse "./run 7/take.2.cplx.48000.16tle" =
    Ret (true, "16tle", true, 48000%float, centre_frequency).
Proof.
  apply (parse_filename_ok_complete Sample.py_float Sample.supported_data_types
           "./run 7/take.2.cplx.48000.16tle" [""; "/run 7/take"]
           "2" "48000" "16tle" 48000%float); reflexivity.
Defined.

(** X6 on a [cf] field with letters for its number. *)
Lemma parse_filename_bad_centre_number_witness :
  Sample.parse "x.cfabc.cplx.48000.16tle" =
  Ret (true, "16tle", true, 48000%float, 0%float).
Proof.
  apply (parse_filename_bad_centre_number Sample.py_float
           Sample.supported_data_types "x" "abc" "48000" "16tle" 48000%float);
    try (split; reflexivity); reflexivity.
Defined.

(** * Further properties of the [Input] class *)

Section InputExtras.

Variable py_float : string -> option float.
Variable supported_data_types : list string.
Variable wave_header : bytes -> result (nat * nat * float * bytes).
Variable cplx_array : Type.
Variable unpack_data : string -> bytes -> cplx_array.
Variable bytes_per_sample : string -> nat.
Variable time_sleep : float -> result unit.

Local Abbreviation parse := (parse_filename py_float supported_data_types).
Local Abbreviation init :=
  (Input_init py_float supported_data_types wave_header bytes_per_sample).
Local Abbreviation read := (read_cplx_samples cplx_array unpack_data time_sleep).
Local Abbreviation after := (after_calls cplx_array unpack_data time_sleep).
Local Abbreviation after_one :=
  (after_call cplx_array unpack_data time_sleep).

(** X7. On a path that is not a wave file and whose name parses with
    [ok = True] and the complex flag set, the constructor takes encoding and
    sample rate from the name, sizes the snapshot for that encoding, and
    takes the centre frequency from the name unless that one is zero, in
    which case the caller's stays. *)
Theorem init_adopts_filename (fs : FileSystem) (file_name : string)
    (n : nat) (data_type : string) (sample_rate centre_frequency : float)
    (data : bytes) (msg encoding : string)
    (sample_rate_hz centre_frequency_fn : float) :
  fs file_name = Ret data ->
  wave_header data = Raise (WaveError msg) ->
  parse file_name =
    Ret (true, encoding, true, sample_rate_hz, centre_frequency_fn) ->
  init fs file_name n data_type sample_rate centre_frequency =
  Ret (mkInput file_name n encoding sample_rate_hz
         (if PrimFloat.eqb centre_frequency_fn 0 then centre_frequency
          else centre_frequency_fn)
         (n * 2 * bytes_per_sample encoding) None
         (Some (mkBufferedReader data 0 false)) true 0%float).
Proof.
  intros Hfs Hwav Hparse.
  unfold Input_init, Input_init_with, init_wave, init_binary, wave_open,
    builtin_open.
  cbn [_source DataSource_init set_file].
  rewrite Hfs. cbn [bind]. rewrite Hwav, Hparse.
  cbn [bind except_WaveError except_OSError].
  destruct (PrimFloat.eqb centre_frequency_fn 0); reflexivity.
Qed.

(** X8. On a path that is not a wave file and whose name parses with
    [ok = False], the constructor succeeds and keeps the caller's encoding,
    sample rate and centre frequency, whatever else the parser returned. *)
Theorem init_keeps_defaults (fs : FileSystem) (file_name : string)
    (n : nat) (data_type : string) (sample_rate centre_frequency : float)
    (data : bytes) (msg encoding : string) (complex_flag : bool)
    (sample_rate_hz centre_frequency_fn : float) :
  fs file_name = Ret data ->
  wave_header data = Raise (WaveError msg) ->
  parse file_name =
    Ret (false, encoding, complex_flag, sample_rate_hz, centre_frequency_fn) ->
  init fs file_name n data_type sample_rate centre_frequency =
  Ret (mkInput file_name n data_type sample_rate centre_frequency
         (n * 2 * bytes_per_sample data_type) None
         (Some (mkBufferedReader data 0 false)) true 0%float).
Proof.
  intros Hfs Hwav Hparse.
  unfold Input_init, Input_init_with, init_wave, init_binary, wave_open,
    builtin_open.
  cbn [_source DataSource_init set_file].
  rewrite Hfs. cbn [bind]. rewrite Hwav, Hparse. reflexivity.
Qed.

(** X9. On a path that is not a wave file, an [IndexError] of the parser
    leaves the constructor as it is: no handler on the way catches it. *)
Theorem init_propagates_IndexError (fs : FileSystem) (file_name : string)
    (n : nat) (data_type : string) (sample_rate centre_frequency : float)
    (data : bytes) (msg msg' : string) :
  fs file_name = Ret data ->
  wave_header data = Raise (WaveError msg) ->
  parse file_name = Raise (IndexError msg') ->
  init fs file_name n data_type sample_rate centre_frequency =
  Raise (IndexError msg').
Proof.
  intros Hfs Hwav Hparse.
  unfold Input_init, Input_init_with, init_wave, init_binary, wave_open,
    builtin_open.
  cbn [_source DataSource_init set_file].
  rewrite Hfs. cbn [bind]. rewrite Hwav, Hparse. reflexivity.
Qed.

(** X10. A wave file that is not stereo, or whose samples are wider than
    two bytes, makes the constructor raise [ValueError]; the raw-binary
    fallback is not tried. *)
Theorem init_refuses_wave_format (fs : FileSystem) (file_name : string)
    (n : nat) (data_type : string) (sample_rate centre_frequency : float)
    (data chunk : bytes) (nchannels sampwidth : nat) (framerate : float) :
  fs file_name = Ret data ->
  wave_header data = Ret (nchannels, sampwidth, framerate, chunk) ->
  nchannels <> 2 \/ 2 < sampwidth ->
  init fs file_name n data_type sample_rate centre_frequency =
    Raise (ValueError "file is wav but not 2 channels") \/
  init fs file_name n data_type sample_rate centre_frequency =
    Raise (ValueError "file is wav but more than 2 bytes per sample").
Proof.
  intros Hfs Hwav Hbad.
  unfold Input_init, Input_init_with, init_wave, wave_open.
  cbn [_source DataSource_init]. rewrite Hfs. cbn [bind]. rewrite Hwav.
  cbn [bind w_nchannels w_sampwidth].
  destruct (Nat.eqb_spec nchannels 2) as [->|Hn]; cbn [negb].
  - destruct Hbad as [Hbad|Hbad]; [contradiction|].
    apply Nat.ltb_lt in Hbad. rewrite Hbad. right. reflexivity.
  - left. reflexivity.
Qed.

(** X11. On a stereo wave file with samples of at most two bytes the
    constructor takes the sample rate from the header and keeps the
    caller's encoding and centre frequency; the filename is not parsed. *)
Theorem init_wave_file (fs : FileSystem) (file_name : string)
    (n : nat) (data_type : string) (sample_rate centre_frequency : float)
    (data chunk : bytes) (sampwidth : nat) (framerate : float) :
  fs file_name = Ret data ->
  wave_header data = Ret (2, sampwidth, framerate, chunk) ->
  sampwidth <= 2 ->
  init fs file_name n data_type sample_rate centre_frequency =
  Ret (mkInput file_name n data_type framerate centre_frequency
         (n * 2 * bytes_per_sample data_type)
         (Some (mkWave_read 2 sampwidth framerate chunk 0 false)) None
         true 0%float).
Proof.
  intros Hfs Hwav Hw.
  unfold Input_init, Input_init_with, init_wave, wave_open.
  cbn [_source DataSource_init]. rewrite Hfs. cbn [bind]. rewrite Hwav.
  cbn [bind w_nchannels w_sampwidth Nat.eqb negb].
  replace (2 <? sampwidth) with false
    by (symmetry; apply Nat.ltb_ge; exact Hw).
  reflexivity.
Qed.

(** X12. On a raw-binary source a read after [close] raises the
    [ValueError] of the closed file and changes nothing: the handle is
    kept closed, not cleared, and the connected flag stays as [close] left
    it. *)
Theorem read_after_close (now : Z) (self : Input) :
  _wav_file self = None ->
  is_set (_file self) = true ->
  read now (snd (close self)) = (Raise read_closed_file, snd (close self)).
Proof.
  destruct self as [? ? ? ? ? ? [w|] [f|] ? ?]; cbn; try discriminate;
    intros _ _; reflexivity.
Qed.

(** X13. When a whole snapshot has been read from a raw-binary file and
    [time.sleep] then raises, the read raises too, an [OSError] wrapped in
    [ValueError] and any other exception as it is; the snapshot is consumed
    all the same, and the connected flag is not touched. *)
Theorem read_sleep_raises (data : bytes) (pos : nat) (now : Z)
    (self : Input) (e : exn) :
  _wav_file self = None ->
  pos + _bytes_per_snap self <= List.length data ->
  time_sleep (_sleep_time self) = Raise e ->
  read now (at_pos data pos self) =
  (Raise match e with
         | OSError msg => ValueError ("OSError, " ++ msg)
         | _ => e
         end,
   at_pos data (pos + _bytes_per_snap self) self).
Proof.
  intros Hw Hlen Hs. destruct self as [src n dt sr cf bps w f c st].
  cbn in Hw, Hs, Hlen |- *. subst w.
  unfold read_cplx_samples, read_snapshot, fetch_file, file_read, try_OSError,
    bindM, assign, raise, ret, lift, at_pos.
  cbn.
  assert (Hn : List.length (firstn bps (skipn pos data)) = bps)
    by (rewrite length_firstn, length_skipn; lia).
  rewrite Hn, Nat.eqb_refl, Hs. cbn. destruct e; reflexivity.
Qed.

Lemma after_one_reading (self : Input) (c : call) :
  is_reading c = true ->
  raw_closed self = false ->
  rewound (after_one self c) = rewound self /\
  raw_closed (after_one self c) = false.
Proof.
  intros Hc Hopen. destruct c as [now| | |t]; try discriminate;
    cbn [after_call].
  - split; [apply read_rewound|]. now rewrite read_raw_closed.
  - unfold reconnect, file_seek0, bindM, assign, ret, lift, rewound,
      raw_closed in *.
    destruct self as [? ? ? ? ? ? [w|] [f|] ? ?]; cbn in *;
      try (split; reflexivity).
    destruct f as [? ? []]; [discriminate|]. split; reflexivity.
Qed.

Lemma after_reading (calls : list call) (self : Input) :
  forallb is_reading calls = true ->
  raw_closed self = false ->
  rewound (after calls self) = rewound self /\
  raw_closed (after calls self) = false.
Proof.
  revert self. induction calls as [|c calls IH]; intros self Hall Hopen;
    [now split|].
  cbn [forallb] in Hall. apply andb_prop in Hall as [Hc Hall].
  change (after (c :: calls) self) with (after calls (after_one self c)).
  destruct (after_one_reading self c Hc Hopen) as [Hr Ho].
  destruct (IH (after_one self c) Hall Ho) as [Hr' Ho'].
  split; [congruence|exact Ho'].
Qed.

(** X14. From any point of reading, [reconnect] brings a constructed source
    back to the state construction left: after any sequence of reads and
    reconnects, failed reads included, it returns [True] and the object is
    again the one the constructor returned. *)
Theorem reconnect_restores (fs : FileSystem) (file_name : string)
    (n : nat) (data_type : string) (sample_rate centre_frequency : float)
    (self0 : Input) (calls : list call) :
  init fs file_name n data_type sample_rate centre_frequency = Ret self0 ->
  forallb is_reading calls = true ->
  reconnect (after calls self0) = (Ret true, self0).
Proof.
  intros Hinit Hcalls.
  apply (init_with_Ret wave_header bytes_per_sample) in Hinit as [Hfresh _].
  destruct (fresh_rewound self0 Hfresh) as (Hrew & Hopen & Hone).
  destruct (after_reading calls self0 Hcalls Hopen) as [Hr Ho].
  destruct (after_calls_handles cplx_array unpack_data time_sleep calls self0)
    as [Hw Hf].
  rewrite reconnect_open; [congruence| |exact Ho].
  rewrite Hw, Hf.
  destruct (is_set (_wav_file self0)), (is_set (_file self0));
    trivial; discriminate.
Qed.

(** X15. A read of an open container source asks for
    [number_complex_samples] frames; when the bytes of that many frames
    are there and are as many as [bytes_per_snap], it returns them decoded
    and moves the reader on by one snapshot. *)
Theorem read_wave_frames (w : Wave_read) (now : Z) (self : Input) :
  w_closed w = false ->
  _number_complex_samples self * (w_nchannels w * w_sampwidth w) =
    _bytes_per_snap self ->
  w_pos w + _bytes_per_snap self <= List.length (w_data w) ->
  time_sleep (_sleep_time self) = Ret tt ->
  read now (on_wave w self) =
  (Ret (Some (unpack_data (_data_type self)
                (firstn (_bytes_per_snap self) (skipn (w_pos w) (w_data w)))),
        now),
   on_wave (set_w_pos (w_pos w + _bytes_per_snap self) w) self).
Proof.
  intros Hc Hsize Hlen Hs.
  destruct self as [src n dt sr cf bps wf f c st].
  destruct w as [nch sw fr data pos closed].
  cbn in Hc, Hsize, Hlen, Hs |- *. subst closed.
  unfold read_cplx_samples, read_snapshot, fetch_wav, wave_readframes,
    try_OSError, bindM, assign, raise, ret, lift, on_wave.
  cbn. rewrite Hsize.
  assert (Hn : List.length (firstn bps (skipn pos data)) = bps)
    by (rewrite length_firstn, length_skipn; lia).
  rewrite Hn, Nat.eqb_refl, Hs. reflexivity.
Qed.

(** X16. When the frames of a container do not have the size the encoding
    implies, a read fails with [ValueError("End of file")] and clears the
    connected flag although the file still holds every frame asked for;
    the frames are consumed. *)
Theorem read_wave_size_mismatch (w : Wave_read) (now : Z) (self : Input) :
  w_closed w = false ->
  _number_complex_samples self * (w_nchannels w * w_sampwidth w) <>
    _bytes_per_snap self ->
  w_pos w + _number_complex_samples self * (w_nchannels w * w_sampwidth w)
    <= List.length (w_data w) ->
  read now (on_wave w self) =
  (Raise (ValueError "End of file"),
   set_connected false
     (on_wave
        (set_w_pos
           (w_pos w +
            _number_complex_samples self * (w_nchannels w * w_sampwidth w))
           w)
        self)).
Proof.
  intros Hc Hsize Hlen.
  destruct self as [src n dt sr cf bps wf f c st].
  destruct w as [nch sw fr data pos closed].
  cbn in Hc, Hsize, Hlen |- *. subst closed.
  unfold read_cplx_samples, read_snapshot, fetch_wav, wave_readframes,
    try_OSError, bindM, assign, raise, ret, lift, on_wave.
  cbn.
  assert (Hn : List.length (firstn (n * (nch * sw)) (skipn pos data))
               = n * (nch * sw))
    by (rewrite length_firstn, length_skipn; lia).
  rewrite Hn.
  replace (n * (nch * sw) =? bps) with false
    by (symmetry; apply Nat.eqb_neq; exact Hsize).
  reflexivity.
Qed.

(** X17. On a container source [reconnect] after [close] still returns
    [True] and sets the connected flag, but nothing has been reopened:
    every read that follows raises [ValueError] from the closed file. *)
Theorem reconnect_closed_wave (w : Wave_read) (self : Input) :
  exists self',
    reconnect (snd (close (on_wave w self))) = (Ret true, self') /\
    _connected self' = true /\
    forall now, read now self' = (Raise closed_file, self').
Proof.
  destruct self as [src n dt sr cf bps wf f c st].
  destruct w as [nch sw fr data pos closed].
  eexists. split; [reflexivity|]. split; reflexivity.
Qed.

End InputExtras.

(** X7 on a file whose name gives the encoding and the rate, and no
    centre frequency: the caller's 7.0 stays. *)
Lemma init_adopts_filename_witness :
  Sample.init Sample.files "x.cplx.48000.8t" 1 "16tle" 1%float 7%float =
  Ret (mkInput "x.cplx.48000.8t" 1 "8t" 48000%float 7%float 2 None
         (Some (mkBufferedReader Sample.nine 0 false)) true 0%float).
Proof.
  apply (init_adopts_filename Sample.py_float Sample.supported_data_types
           Sample.wave_header Sample.bytes_per_sample Sample.files
           "x.cplx.48000.8t" 1 "16tle" 1%float 7%float Sample.nine
           "file does not start with RIFF id" "8t" 48000%float 0%float);
    reflexivity.
Defined.

(** X8 on a file whose name the parser does not accept. *)
Lemma init_keeps_defaults_witness :
  Sample.init Sample.files "x.real.10000.16tbe" 1 "16tle" 48000%float 7%float =
  Ret (mkInput "x.real.10000.16tbe" 1 "16tle" 48000%float 7%float 4 None
         (Some (mkBufferedReader Sample.eight 0 false)) true 0%float).
Proof.
  apply (init_keeps_defaults Sample.py_float Sample.supported_data_types
           Sample.wave_header Sample.bytes_per_sample Sample.files
           "x.real.10000.16tbe" 1 "16tle" 48000%float 7%float Sample.eight
           "file does not start with RIFF id" "16tbe" false 0%float 0%float);
    reflexivity.
Defined.

(** X9 on a file whose tag field is the one that contains [cf]. *)
Lemma init_propagates_IndexError_witness :
  Sample.init Sample.tagged_files "x.cplx.48000.cf16" 1 "16tle" 48000%float
    0%float =
  Raise (IndexError "list index out of range").
Proof.
  apply (init_propagates_IndexError Sample.py_float Sample.supported_data_types
           Sample.wave_header Sample.bytes_per_sample Sample.tagged_files
           "x.cplx.48000.cf16" 1 "16tle" 48000%float 0%float
           Sample.eight "file does not start with RIFF id"
           "list index out of range"); reflexivity.
Defined.

(** X10 on a mono wave file. *)
Lemma init_refuses_wave_format_witness :
  Input_init Sample.py_float Sample.supported_data_types Sample.mono_header
    Sample.bytes_per_sample Sample.files "x.cplx.48000.8t" 1 "16tle"
    48000%float 0%float =
    Raise (ValueError "file is wav but not 2 channels") \/
  Input_init Sample.py_float Sample.supported_data_types Sample.mono_header
    Sample.bytes_per_sample Sample.files "x.cplx.48000.8t" 1 "16tle"
    48000%float 0%float =
    Raise (ValueError "file is wav but more than 2 bytes per sample").
Proof.
  apply (init_refuses_wave_format Sample.py_float Sample.supported_data_types
           Sample.mono_header Sample.bytes_per_sample Sample.files
           "x.cplx.48000.8t" 1 "16tle" 48000%float 0%float
           Sample.nine Sample.nine 1 2 8000%float); try reflexivity.
  left. discriminate.
Defined.

(** X11 on a stereo wave file whose name would say 48000 Hz and [8t]. *)
Lemma init_wave_file_witness :
  Input_init Sample.py_float Sample.supported_data_types Sample.stereo_header
    Sample.bytes_per_sample Sample.files "x.cplx.48000.8t" 1 "16tle"
    44100%float 7%float =
  Ret (mkInput "x.cplx.48000.8t" 1 "16tle" 8000%float 7%float 4
         (Some Sample.wave_reader) None true 0%float).
Proof.
  apply (init_wave_file Sample.py_float Sample.supported_data_types
           Sample.stereo_header Sample.bytes_per_sample Sample.files
           "x.cplx.48000.8t" 1 "16tle" 44100%float 7%float
           Sample.nine Sample.nine 1 8000%float); try reflexivity.
  lia.
Defined.

(** X12 on the sample source. *)
Lemma read_after_close_witness :
  Sample.read 10%Z (snd (close Sample.capture)) =
  (Raise read_closed_file, snd (close Sample.capture)).
Proof.
  apply (read_after_close bytes Sample.unpack_data Sample.time_sleep 10%Z
           Sample.capture); reflexivity.
Defined.

(** X13 on the sample source with a negative delay: the first snapshot is
    consumed and lost. *)
Lemma read_sleep_raises_witness :
  Sample.read 10%Z (set_sleep_time (-1)%float Sample.capture) =
  (Raise (ValueError "sleep length must be non-negative"),
   set_sleep_time (-1)%float (Sample.capture_at 2 true)).
Proof.
  apply (read_sleep_raises bytes Sample.unpack_data Sample.time_sleep
           Sample.nine 0 10%Z
           (set_sleep_time (-1)%float Sample.capture)
           (ValueError "sleep length must be non-negative"));
    try reflexivity.
  cbn. lia.
Defined.

(** X14 on a run of reads and a rewind. *)
Lemma reconnect_restores_witness :
  reconnect (after_calls bytes Sample.unpack_data Sample.time_sleep
               [Read 10%Z; Read 20%Z; Read 30%Z; Reconnect; Read 40%Z]
               Sample.capture) =
  (Ret true, Sample.capture).
Proof.
  apply (reconnect_restores Sample.py_float Sample.supported_data_types
           Sample.wave_header bytes Sample.unpack_data Sample.bytes_per_sample
           Sample.time_sleep Sample.files "x.cplx.48000.8t" 1 "16tle"
           1%float 0%float Sample.capture
           [Read 10%Z; Read 20%Z; Read 30%Z; Reconnect; Read 40%Z]);
    reflexivity.
Defined.

(** X15 on 8-bit stereo frames read as [8t]. *)
Lemma read_wave_frames_witness :
  Sample.read 10%Z
    (mkInput "x.wav" 1 "8t" 8000%float 0%float 2 (Some Sample.wave_reader)
       None true 0%float) =
  (Ret (Some [Byte.x01; Byte.x02], 10%Z),
   mkInput "x.wav" 1 "8t" 8000%float 0%float 2
     (Some (set_w_pos 2 Sample.wave_reader)) None true 0%float).
Proof.
  apply (read_wave_frames bytes Sample.unpack_data Sample.time_sleep
           Sample.wave_reader 10%Z
           (mkInput "x.wav" 1 "8t" 8000%float 0%float 2
              (Some Sample.wave_reader) None true 0%float));
    try reflexivity.
  cbn. lia.
Defined.

(** X16 on the same frames read as [16tle]: frames of two bytes, snapshots
    of four. *)
Lemma read_wave_size_mismatch_witness :
  Sample.read 10%Z
    (mkInput "x.wav" 1 "16tle" 8000%float 0%float 4 (Some Sample.wave_reader)
       None true 0%float) =
  (Raise (ValueError "End of file"),
   mkInput "x.wav" 1 "16tle" 8000%float 0%float 4
     (Some (set_w_pos 2 Sample.wave_reader)) None false 0%float).
Proof.
  apply (read_wave_size_mismatch bytes Sample.unpack_data Sample.time_sleep
           Sample.wave_reader 10%Z
           (mkInput "x.wav" 1 "16tle" 8000%float 0%float 4
              (Some Sample.wave_reader) None true 0%float)).
  - reflexivity.
  - cbn. discriminate.
  - cbn. lia.
Defined.
